(** * The health-monitoring subsystem of the bot

    A shallow embedding of [src/keep_alive.py] (the [UptimeMonitor] probe
    loop), of [src/web_server.py] (the [HealthCheckServer] handlers and
    start-up) and of the start-up hook of [src/bot.py], followed by the
    properties the specification states about them.

    Layout: the pieces of the Python runtime the code relies on ([Py]), the
    three source modules ([KeepAlive], [WebServer], [Bot]), then the facts. *)

From Stdlib Require Import ZArith QArith Qround Qabs Lqa Bool List Lia.
From Stdlib Require Import String Ascii DecimalString.
From Stdlib Require Import PrimFloat FloatOps SpecFloat Uint63.
Import ListNotations.

Set Warnings "-inexact-float,-register-all".

Open Scope string_scope.
Open Scope Z_scope.

(* ================================================================== *)
(** * Python runtime: exceptions, numbers, strings *)
(* ================================================================== *)

Module Py.

(** The exception classes the code names in its [except] clauses, with the
    part of the class hierarchy those clauses depend on.  Since Python 3.8
    [asyncio.CancelledError] derives from [BaseException] only, like
    [KeyboardInterrupt]; every other class here derives from [Exception]. *)
Inductive exn : Type :=
| TimeoutError                       (* asyncio.TimeoutError *)
| ClientError (msg : string)         (* aiohttp.ClientError and subclasses *)
| OSError (msg : string)             (* e.g. a port that cannot be bound *)
| OtherException (msg : string)      (* any other subclass of Exception *)
| CancelledError                     (* asyncio.CancelledError *)
| KeyboardInterrupt.

(** [isinstance(e, Exception)]. *)
Definition is_Exception (e : exn) : bool :=
  match e with
  | CancelledError | KeyboardInterrupt => false
  | _ => true
  end.

(** [isinstance(e, asyncio.TimeoutError)]. *)
Definition is_TimeoutError (e : exn) : bool :=
  match e with TimeoutError => true | _ => false end.

(** [isinstance(e, aiohttp.ClientError)]. *)
Definition is_ClientError (e : exn) : bool :=
  match e with ClientError _ => true | _ => false end.

(** [isinstance(e, asyncio.CancelledError)]. *)
Definition is_CancelledError (e : exn) : bool :=
  match e with CancelledError => true | _ => false end.

(** [isinstance(e, KeyboardInterrupt)]. *)
Definition is_KeyboardInterrupt (e : exn) : bool :=
  match e with KeyboardInterrupt => true | _ => false end.

(** [str(e)], as the f-strings of the log calls render an exception. *)
Definition str_exn (e : exn) : string :=
  match e with
  | ClientError msg | OSError msg | OtherException msg => msg
  | TimeoutError | CancelledError | KeyboardInterrupt => EmptyString
  end.

(** How a call ends: it returns a value or an exception leaves it. *)
Inductive result (A : Type) : Type :=
| Return (a : A)
| Raise (e : exn).
Arguments Return {A} a.
Arguments Raise {A} e.

(** ** Numbers *)

(** A Python number as the code computes them: an [int] or a [float]
    (IEEE binary64, the kernel's primitive floats). *)
Inductive number : Type :=
| Int (z : Z)
| Float (x : float).

(** The binary64 value nearest to the positive rational [n / d]
    ([0 < n], [0 < d]), ties to even.  The quotient is taken with 55 or 56
    significant bits, its last bit made sticky, and the conversion to binary64
    then rounds once.  Exact in the normal range of binary64. *)
Definition nearest_pos (n d : Z) : float :=
  let s := 55 - (Z.log2 n - Z.log2 d) in
  let n' := if 0 <=? s then n * 2 ^ s else n in
  let d' := if 0 <=? s then d else d * 2 ^ (- s) in
  let q := n' / d' in
  let q' := if n' mod d' =? 0 then q else Z.lor q 1 in
  FloatOps.Z.ldexp (PrimFloat.of_uint63 (Uint63.of_Z q')) (- s).

(** The binary64 value nearest to [n / d], for [0 < d]. *)
Definition nearest_double (n d : Z) : float :=
  match n with
  | Z0 => PrimFloat.zero
  | Zpos _ => nearest_pos n d
  | Zneg p => PrimFloat.opp (nearest_pos (Zpos p) d)
  end.

(** [a / b] on ints: true division, correctly rounded.  Python raises
    [ZeroDivisionError] for [b = 0]; the code divides under a guard, and the
    value here for [b = 0] is not meant. *)
Definition truediv (a b : Z) : float :=
  if b <? 0 then PrimFloat.opp (nearest_double a (- b))
  else nearest_double a b.

(** [float(n)] for an int. *)
Definition float_of_int (n : Z) : float := nearest_double n 1.

(** [x / n] for a float [x] and an int [n] other than [0]. *)
Definition div_int (x : float) (n : Z) : float :=
  PrimFloat.div x (float_of_int n).

(** [x * n] for a float [x] and an int [n]. *)
Definition mul_int (x : float) (n : Z) : float :=
  PrimFloat.mul x (float_of_int n).

(** The integer nearest to [n / d] ([0 < d]), ties to even. *)
Definition round_half_even (n d : Z) : Z :=
  let q := n / d in
  let r := n mod d in
  match 2 * r ?= d with
  | Lt => q
  | Gt => q + 1
  | Eq => if Z.even q then q else q + 1
  end.

(** [round(x, ndigits)] on a float, [0 <= ndigits]: the exact binary value
    of [x] is rounded to [ndigits] decimals, ties to even, and the decimal is
    converted back to the nearest binary64 (CPython's [double_round]).  Zeros,
    infinities and NaN are returned as they are. *)
Definition round_float (x : float) (ndigits : Z) : float :=
  match Prim2SF x with
  | S754_finite s m e =>
      let scale := 10 ^ ndigits in
      let k := if 0 <=? e
               then Zpos m * 2 ^ e * scale
               else round_half_even (Zpos m * scale) (2 ^ (- e)) in
      let r := nearest_double k scale in
      if s then PrimFloat.opp r else r
  | _ => x
  end.

(** [round(v, ndigits)] with [0 <= ndigits]: an int is returned unchanged. *)
Definition round (v : number) (ndigits : Z) : number :=
  match v with
  | Int z => Int z
  | Float x => Float (round_float x ndigits)
  end.

(** The exact value of a finite float. *)
Definition Q_of_float (x : float) : Q :=
  match Prim2SF x with
  | S754_finite s m e =>
      let v := if 0 <=? e then inject_Z (Zpos m * 2 ^ e)
               else Qmake (Zpos m) (Z.to_pos (2 ^ (- e))) in
      if s then Qopp v else v
  | _ => 0%Q
  end.

(** ** Floor division, remainder and [int()] on a number given by its exact
    value.  [seconds // 86400] and [seconds % 60] are applied by the code to
    ints and to the float that [timedelta.total_seconds()] returns; on floats
    both are exact for nonnegative values below [2 ^ 53]. *)
Definition floordiv (x : Q) (d : Z) : Q := inject_Z (Qfloor (x / inject_Z d)).

Definition mod_ (x : Q) (d : Z) : Q :=
  (x - inject_Z d * inject_Z (Qfloor (x / inject_Z d)))%Q.

(** [int(x)]: truncation towards zero. *)
Definition int (x : Q) : Z := Z.quot (Qnum x) (Zpos (Qden x)).

(** ** Strings *)

(** [str(n)] for an int, which is also how an f-string renders it. *)
Definition str (n : Z) : string := NilZero.string_of_int (Z.to_int n).

(** [sep.join(parts)]. *)
Definition join (sep : string) (parts : list string) : string :=
  String.concat sep parts.

(** [parts.append(x)]. *)
Definition append {A : Type} (parts : list A) (x : A) : list A :=
  (parts ++ [x])%list.

(** [not parts]: a list is false when it is empty. *)
Definition not_ {A : Type} (parts : list A) : bool :=
  match parts with [] => true | _ :: _ => false end.

(** [x if x is not None else d]: a keyword argument with a default. *)
Definition default {A : Type} (d : A) (x : option A) : A :=
  match x with Some a => a | None => d end.

End Py.

(* ================================================================== *)
(** * src/keep_alive.py *)
(* ================================================================== *)

Module KeepAlive.
Import Py.

(** [datetime.now()] readings and their differences, in microseconds (the
    resolution of [datetime]). *)
Definition datetime := Z.
Definition timedelta := Z.

(** [td.total_seconds()]: the microseconds divided by [10 ** 6], a float. *)
Definition total_seconds (td : timedelta) : float := truediv td 1000000.

(** The fields [UptimeMonitor.__init__] sets (lines 21-28). *)
Record UptimeMonitor : Type := mkUptimeMonitor {
  url : string;
  interval : Z;
  timeout : Z;
  start_time : datetime;
  last_ping : option datetime;
  ping_count : Z;
  failed_pings : Z;
  is_running : bool
}.

(** [UptimeMonitor(url, interval=300, timeout=10)], called at time [now];
    an argument left out is [None]. *)
Definition __init__ (now : datetime) (url_ : string)
  (interval_ timeout_ : option Z) : UptimeMonitor :=
  {| url := url_;
     interval := default 300 interval_;
     timeout := default 10 timeout_;
     start_time := now;
     last_ping := None;
     ping_count := 0;
     failed_pings := 0;
     is_running := false |}.

(** Assignments to single attributes of [self]. *)
Definition set_ping_count (self : UptimeMonitor) (n : Z) : UptimeMonitor :=
  {| url := url self; interval := interval self; timeout := timeout self;
     start_time := start_time self; last_ping := last_ping self;
     ping_count := n; failed_pings := failed_pings self;
     is_running := is_running self |}.

Definition set_failed_pings (self : UptimeMonitor) (n : Z) : UptimeMonitor :=
  {| url := url self; interval := interval self; timeout := timeout self;
     start_time := start_time self; last_ping := last_ping self;
     ping_count := ping_count self; failed_pings := n;
     is_running := is_running self |}.

Definition set_last_ping (self : UptimeMonitor) (t : datetime) : UptimeMonitor :=
  {| url := url self; interval := interval self; timeout := timeout self;
     start_time := start_time self; last_ping := Some t;
     ping_count := ping_count self; failed_pings := failed_pings self;
     is_running := is_running self |}.

Definition set_is_running (self : UptimeMonitor) (b : bool) : UptimeMonitor :=
  {| url := url self; interval := interval self; timeout := timeout self;
     start_time := start_time self; last_ping := last_ping self;
     ping_count := ping_count self; failed_pings := failed_pings self;
     is_running := b |}.

(** The records the module writes to its logger, one constructor per call
    site, with the values the message interpolates. *)
Inductive log_record : Type :=
| PingSuccessful (status : Z)            (* info,    line 41 *)
| PingReturnedStatus (status : Z)        (* warning, line 44 *)
| PingTimeout (timeout_ : Z)             (* error,   line 49 *)
| NetworkError (e : exn)                 (* error,   line 53 *)
| UnexpectedError (e : exn)              (* error,   line 57 *)
| StartingMonitor (url_ : string)        (* info,    line 102 *)
| PingInterval (interval_ : Z)           (* info,    line 103 *)
| RequestTimeout (timeout_ : Z)          (* info,    line 104 *)
| Stats (total_pings : Z) (success_rate : number) (uptime_formatted : string)
                                         (* info,    line 119 *)
| MonitoringCancelled                    (* info,    line 126 *)
| LoopError (e : exn)                    (* error,   line 129 *)
| MonitorStopped                         (* info,    line 132 *)
| StoppingMonitor                        (* info,    line 137 *)
| KeepAliveError (e : exn).              (* error,   line 156 *)

(** What the coroutine does to the outside world, in the order it does it. *)
Inductive action : Type :=
| HttpGet (url_ : string) (total_timeout : Z)   (* lines 33-36 *)
| Sleep (seconds : Z)                           (* lines 111 and 130 *)
| Log (r : log_record).

(** How the GET of lines 33-36 ends: a response arrives and the body of the
    [async with] runs, or the request raises before there is a response.
    Exceptions raised while the two [async with] blocks are left are not
    modelled. *)
Inductive request_result : Type :=
| Response (status : Z)
| Failed (e : exn).

(** [ping_service] (lines 30-59), given how its request ends and the clock
    reading of line 38.  It gives back the monitor, what it logged, and its
    own outcome. *)
Definition ping_service (self : UptimeMonitor) (now : datetime)
  (r : request_result) : UptimeMonitor * list log_record * result bool :=
  match r with
  | Response status =>
      let self := set_ping_count self (ping_count self + 1) in
      let self := set_last_ping self now in
      if status =? 200
      then (self, [PingSuccessful status], Return true)
      else (set_failed_pings self (failed_pings self + 1),
            [PingReturnedStatus status], Return false)
  | Failed e =>
      if is_TimeoutError e
      then (set_failed_pings self (failed_pings self + 1),
            [PingTimeout (timeout self)], Return false)
      else if is_ClientError e
      then (set_failed_pings self (failed_pings self + 1),
            [NetworkError e], Return false)
      else if is_Exception e
      then (set_failed_pings self (failed_pings self + 1),
            [UnexpectedError e], Return false)
      else (self, [], Raise e)
  end.

(** The three components of what [ping_service] gives back. *)
Definition monitor_after (x : UptimeMonitor * list log_record * result bool)
  : UptimeMonitor := fst (fst x).

Definition logged_by (x : UptimeMonitor * list log_record * result bool)
  : list log_record := snd (fst x).

Definition outcome_of (x : UptimeMonitor * list log_record * result bool)
  : result bool := snd x.

(** [format_duration] (lines 80-97).  [seconds] is the exact value of the
    Python number passed: an int, or the float of [total_seconds()]. *)
Definition format_duration (seconds : Q) : string :=
  let days := int (floordiv seconds 86400) in
  let hours := int (floordiv (mod_ seconds 86400) 3600) in
  let minutes := int (floordiv (mod_ seconds 3600) 60) in
  let secs := int (mod_ seconds 60) in
  let parts := [] in
  let parts := if 0 <? days then append parts (str days ++ "д") else parts in
  let parts := if 0 <? hours then append parts (str hours ++ "ч") else parts in
  let parts :=
    if 0 <? minutes then append parts (str minutes ++ "м") else parts in
  let parts :=
    if (0 <? secs) || not_ parts
    then append parts (str secs ++ "с") else parts in
  join " " parts.

(** The values of the dict [get_uptime_stats] returns. *)
Inductive value : Type :=
| VNone
| VNum (n : number)
| VStr (s : string)
| VIso (t : datetime).      (* the string [t.isoformat()] *)

(** The expression of lines 64-68. *)
Definition success_rate (self : UptimeMonitor) : number :=
  if 0 <? ping_count self
  then Float (mul_int
                (truediv (ping_count self - failed_pings self) (ping_count self))
                100)
  else Int 0.

(** [get_uptime_stats] (lines 61-78), with the clock reading of line 63.
    The dict is given as its items, in the order of the literal. *)
Definition get_uptime_stats (self : UptimeMonitor) (now : datetime)
  : list (string * value) :=
  let uptime := now - start_time self in
  let success_rate := success_rate self in
  [ ("start_time", VIso (start_time self));
    ("uptime_seconds", VNum (Float (total_seconds uptime)));
    ("uptime_formatted",
       VStr (format_duration (Q_of_float (total_seconds uptime))));
    ("last_ping",
       match last_ping self with Some t => VIso t | None => VNone end);
    ("total_pings", VNum (Int (ping_count self)));
    ("failed_pings", VNum (Int (failed_pings self)));
    ("success_rate", VNum (round success_rate 2)) ].

(** [stats[key]]. *)
Fixpoint getitem (d : list (string * value)) (key : string) : option value :=
  match d with
  | [] => None
  | (k, v) :: d => if String.eqb k key then Some v else getitem d key
  end.

(** [stop_monitoring] (lines 134-137). *)
Definition stop_monitoring (self : UptimeMonitor)
  : UptimeMonitor * list log_record :=
  (set_is_running self false, [StoppingMonitor]).

(** ** The coroutine [start_monitoring] (lines 99-132)

    The coroutine runs between its [await]s without interruption; at an
    [await] the event loop resumes it with a result or an exception, and may
    run other tasks first, which can call [stop_monitoring].  [phase] names
    the [await] the coroutine is suspended at. *)
Inductive phase : Type :=
| NotStarted                (* [start_monitoring] has not been called *)
| FirstPing                 (* line 107 *)
| Sleeping                  (* line 111 *)
| Pinging                   (* line 114 *)
| Cooldown                  (* line 130 *)
| Returned                  (* line 132 has run *)
| Raised (e : exn).         (* an exception left [start_monitoring] *)

Inductive event : Type :=
| Call_start_monitoring
| Call_stop_monitoring                  (* from another task *)
| RequestDone (now : datetime) (r : request_result)
                                        (* the pending GET ends, at [now] *)
| SleepDone                             (* the pending sleep has elapsed *)
| SleepRaised (e : exn).                (* the pending sleep raises, e.g.
                                           [CancelledError] on cancellation *)

Record loop : Type := mkLoop {
  self : UptimeMonitor;
  at_ : phase;
  trace : list action       (* oldest first *)
}.

Definition log (l : loop) (r : log_record) : loop :=
  {| self := self l; at_ := at_ l; trace := append (trace l) (Log r) |}.

Definition logs (l : loop) (rs : list log_record) : loop :=
  fold_left log rs l.

Definition emit (l : loop) (a : action) (p : phase) : loop :=
  {| self := self l; at_ := p; trace := append (trace l) a |}.

Definition goto (l : loop) (p : phase) : loop :=
  {| self := self l; at_ := p; trace := trace l |}.

Definition with_self (l : loop) (m : UptimeMonitor) : loop :=
  {| self := m; at_ := at_ l; trace := trace l |}.

(** The request [ping_service] issues: lines 33-36. *)
Definition issue_ping (l : loop) (p : phase) : loop :=
  emit l (HttpGet (url (self l)) (timeout (self l))) p.

(** Line 132 and the return. *)
Definition finish (l : loop) : loop := goto (log l MonitorStopped) Returned.

(** The test of line 109, then line 111 or the exit of the loop. *)
Definition loop_head (l : loop) : loop :=
  if is_running (self l)
  then emit l (Sleep (interval (self l))) Sleeping
  else finish l.

(** The [except] clauses of lines 125-130, for an exception [e] raised in
    the [try] body. *)
Definition loop_except (l : loop) (e : exn) : loop :=
  if is_CancelledError e
  then finish (log l MonitoringCancelled)                (* break *)
  else if is_Exception e
  then emit (log l (LoopError e)) (Sleep 30) Cooldown
  else goto l (Raised e).

(** Lines 116-123, after a ping of the loop has returned. *)
Definition log_stats (l : loop) (now : datetime) : loop :=
  if ping_count (self l) mod 10 =? 0
  then
    let stats := get_uptime_stats (self l) now in
    match getitem stats "total_pings", getitem stats "success_rate",
          getitem stats "uptime_formatted" with
    | Some (VNum (Int n)), Some (VNum r), Some (VStr u) => log l (Stats n r u)
    | _, _, _ => l
    end
  else l.

(** One step of the coroutine or of its environment; [None] when the event
    cannot happen in the phase.  The clock is read once per step. *)
Definition step (ev : event) (l : loop) : option loop :=
  match ev, at_ l with
  | Call_stop_monitoring, _ =>
      let '(m, rs) := stop_monitoring (self l) in
      Some (logs (with_self l m) rs)
  | Call_start_monitoring, NotStarted =>
      let l := with_self l (set_is_running (self l) true) in      (* 101 *)
      let l := logs l [StartingMonitor (url (self l));
                       PingInterval (interval (self l));
                       RequestTimeout (timeout (self l))] in
      Some (issue_ping l FirstPing)                               (* 107 *)
  | RequestDone now r, FirstPing =>
      let '(m, rs, res) := ping_service (self l) now r in
      let l := logs (with_self l m) rs in
      match res with
      | Return _ => Some (loop_head l)
      | Raise e => Some (goto l (Raised e))
      end
  | RequestDone now r, Pinging =>
      let '(m, rs, res) := ping_service (self l) now r in
      let l := logs (with_self l m) rs in
      match res with
      | Return _ => Some (loop_head (log_stats l now))
      | Raise e => Some (loop_except l e)
      end
  | SleepDone, Sleeping =>
      if is_running (self l)                                      (* 113 *)
      then Some (issue_ping l Pinging)
      else Some (loop_head l)
  | SleepRaised e, Sleeping => Some (loop_except l e)
  | SleepDone, Cooldown => Some (loop_head l)
  | SleepRaised e, Cooldown => Some (goto l (Raised e))
  | _, _ => None
  end.

(** A sequence of events, from the left. *)
Fixpoint run (evs : list event) (l : loop) : option loop :=
  match evs with
  | [] => Some l
  | ev :: evs =>
      match step ev l with
      | Some l' => run evs l'
      | None => None
      end
  end.

(** A monitor whose [start_monitoring] has not been called. *)
Definition idle (m : UptimeMonitor) : loop :=
  {| self := m; at_ := NotStarted; trace := [] |}.

(** The GET requests of a trace, in order. *)
Definition probes (t : list action) : list action :=
  filter (fun a => match a with HttpGet _ _ => true | _ => false end) t.

(** [start_monitoring] is over: it returned or raised. *)
Definition terminated (p : phase) : bool :=
  match p with Returned | Raised _ => true | _ => false end.

(** ** [keep_alive] (lines 141-157) *)

(** Lines 149 and 152 up to the first [await]: the monitor is built and
    [start_monitoring] is entered.  [interval_] is [None] when the caller
    leaves the argument out. *)
Definition keep_alive (now : datetime) (url_ : string) (interval_ : option Z)
  : option loop :=
  let interval_ := default 300 interval_ in
  let monitor := __init__ now url_ (Some interval_) None in
  step Call_start_monitoring (idle monitor).

(** Lines 151-157, once [start_monitoring] is over. *)
Definition keep_alive_end (l : loop) : option (loop * result unit) :=
  match at_ l with
  | Returned => Some (l, Return tt)
  | Raised e =>
      if is_KeyboardInterrupt e
      then let '(m, rs) := stop_monitoring (self l) in
           Some (logs (with_self l m) rs, Return tt)
      else if is_Exception e
      then Some (log l (KeepAliveError e), Raise e)
      else Some (l, Raise e)
  | _ => None
  end.

End KeepAlive.

(* ================================================================== *)
(** * src/web_server.py *)
(* ================================================================== *)

Module WebServer.
Import Py.

Definition datetime := KeepAlive.datetime.
Definition total_seconds := KeepAlive.total_seconds.

(** The bound application handle; the server only awaits its [get_me()]. *)
Record Bot : Type := mkBot { token : string }.

(** What [get_me()] returns, as far as [bot_status] reads it. *)
Record User : Type := mkUser {
  username : string;
  id : Z;
  first_name : string
}.

(** The data handed to [web.json_response]. *)
Inductive json : Type :=
| JNum (n : number)
| JStr (s : string)
| JIso (t : datetime)                 (* the string [t.isoformat()] *)
| JObj (items : list (string * json)).

Record response : Type := mkResponse {
  status : Z;
  body : json
}.

(** [web.json_response(data, status=200)]. *)
Definition json_response (data : json) (status_ : option Z) : response :=
  {| status := default 200 status_; body := data |}.

(** The handlers of the class. *)
Inductive handler : Type := health_check_ | bot_status_ | uptime_.

(** The fields [HealthCheckServer.__init__] sets (lines 14-19); [routes] is
    what [setup_routes] registers on [self.app], every route a GET.  The
    CORS set-up of lines 21-37 only adds headers to the responses and is left
    out.  In a handler, [now] stands for each [datetime.now()] of the call. *)
Record HealthCheckServer : Type := mkHealthCheckServer {
  bot : option Bot;
  port : Z;
  start_time : datetime;
  routes : list (string * handler)
}.

(** [setup_routes] (lines 39-44). *)
Definition setup_routes : list (string * handler) :=
  [ ("/", health_check_); ("/health", health_check_);
    ("/status", bot_status_); ("/uptime", uptime_) ].

(** [HealthCheckServer(bot=None, port=8080)], called at time [now]. *)
Definition __init__ (now : datetime) (bot_ : option Bot) (port_ : option Z)
  : HealthCheckServer :=
  {| bot := bot_;
     port := default 8080 port_;
     start_time := now;
     routes := setup_routes |}.

Inductive log_record : Type :=
| ErrorGettingBotStatus (e : exn)        (* error, line 79 *)
| ServerStarted (port_ : Z)              (* info,  line 150 *)
| HealthCheckAvailable (port_ : Z)       (* info,  line 151 *)
| ErrorStartingServer (e : exn).         (* error, line 157 *)

(** [health_check] (lines 46-55). *)
Definition health_check (self : HealthCheckServer) (now : datetime)
  : response :=
  json_response
    (JObj [ ("status", JStr "healthy");
            ("service", JStr "telegram-giveaway-bot");
            ("timestamp", JIso now);
            ("uptime_seconds",
               JNum (Float (total_seconds (now - start_time self)))) ])
    None.

(** [bot_status] (lines 57-87).  [me] is how [await self.bot.get_me()] ends
    when it is reached. *)
Definition bot_status (self : HealthCheckServer) (now : datetime)
  (me : result User) : list log_record * result response :=
  match bot self with
  | Some _ =>
      match me with
      | Return bot_info =>
          ([], Return (json_response
                 (JObj [ ("bot_status", JStr "running");
                         ("bot_username", JStr (username bot_info));
                         ("bot_id", JNum (Int (id bot_info)));
                         ("bot_name", JStr (first_name bot_info));
                         ("timestamp", JIso now) ])
                 None))
      | Raise e =>
          if is_Exception e
          then ([ErrorGettingBotStatus e],
                Return (json_response
                  (JObj [ ("bot_status", JStr "error");
                          ("error", JStr (str_exn e));
                          ("timestamp", JIso now) ])
                  (Some 500)))
          else ([], Raise e)
      end
  | None =>
      ([], Return (json_response
             (JObj [ ("bot_status", JStr "not_initialized");
                     ("timestamp", JIso now) ])
             None))
  end.

(** The suffixes of lines 121, 126, 131 and 136. *)
Definition suffix (n : Z) (one few many : string) : string :=
  if n =? 1 then one
  else if (2 <=? n) && (n <=? 4) then few
  else many.

(** [format_uptime] (lines 110-139). *)
Definition format_uptime (seconds : Q) : string :=
  let days := int (floordiv seconds 86400) in
  let hours := int (floordiv (mod_ seconds 86400) 3600) in
  let minutes := int (floordiv (mod_ seconds 3600) 60) in
  let secs := int (mod_ seconds 60) in
  let parts := [] in
  let parts :=
    if 0 <? days
    then append parts
           (str days ++ " день" ++ suffix days EmptyString "а" "ей")
    else parts in
  let parts :=
    if 0 <? hours
    then append parts
           (str hours ++ " час" ++ suffix hours EmptyString "а" "ов")
    else parts in
  let parts :=
    if 0 <? minutes
    then append parts
           (str minutes ++ " минут" ++ suffix minutes "а" "ы" EmptyString)
    else parts in
  let parts :=
    if (0 <? secs) || not_ parts
    then append parts
           (str secs ++ " секунд" ++ suffix secs "а" "ы" EmptyString)
    else parts in
  join ", " parts.

(** [uptime] (lines 89-108). *)
Definition uptime (self : HealthCheckServer) (now : datetime) : response :=
  let uptime_seconds := total_seconds (now - start_time self) in
  let uptime_minutes := div_int uptime_seconds 60 in
  let uptime_hours := div_int uptime_minutes 60 in
  let uptime_days := div_int uptime_hours 24 in
  json_response
    (JObj [ ("start_time", JIso (start_time self));
            ("current_time", JIso now);
            ("uptime",
               JObj [ ("seconds", JNum (round (Float uptime_seconds) 2));
                      ("minutes", JNum (round (Float uptime_minutes) 2));
                      ("hours", JNum (round (Float uptime_hours) 2));
                      ("days", JNum (round (Float uptime_days) 2));
                      ("formatted",
                         JStr (format_uptime (Q_of_float uptime_seconds))) ])
          ])
    None.

(** The handler the router finds for [GET path], if any. *)
Fixpoint resolve (rs : list (string * handler)) (path : string)
  : option handler :=
  match rs with
  | [] => None
  | (p, h) :: rs => if String.eqb p path then Some h else resolve rs path
  end.

(** A GET request served by the application: the handler's log records and
    how it ends; [None] when no route matches. *)
Definition get (self : HealthCheckServer) (path : string) (now : datetime)
  (me : result User) : option (list log_record * result response) :=
  match resolve (routes self) path with
  | Some health_check_ => Some ([], Return (health_check self now))
  | Some bot_status_ => Some (bot_status self now me)
  | Some uptime_ => Some ([], Return (uptime self now))
  | None => None
  end.

(** ** [start_server] (lines 141-158) *)

(** What starting the server asks of the operating system. *)
Inductive io : Type :=
| RunnerSetup                              (* line 145 *)
| SiteStart (host : string) (port_ : Z).   (* lines 147-148 *)

(** The value of line 155. *)
Inductive AppRunner : Type := Runner (port_ : Z).

Record started : Type := mkStarted {
  did : list io;
  logged : list log_record;
  ended : result AppRunner
}.

(** The [except] clause of lines 156-158: log and re-raise. *)
Definition start_server_except (did_ : list io) (e : exn) : started :=
  if is_Exception e
  then {| did := did_; logged := [ErrorStartingServer e]; ended := Raise e |}
  else {| did := did_; logged := []; ended := Raise e |}.

(** [start_server], given how [runner.setup()] and [site.start()] end. *)
Definition start_server (self : HealthCheckServer)
  (setup_ site_start : result unit) : started :=
  match setup_ with
  | Raise e => start_server_except [RunnerSetup] e
  | Return _ =>
      let did_ := [RunnerSetup; SiteStart "0.0.0.0" (port self)] in
      match site_start with
      | Raise e => start_server_except did_ e
      | Return _ =>
          {| did := did_;
             logged := [ServerStarted (port self);
                        HealthCheckAvailable (port self)];
             ended := Return (Runner (port self)) |}
      end
  end.

End WebServer.

(* ================================================================== *)
(** * src/bot.py: the start-up hook *)
(* ================================================================== *)

Module Bot.
Import Py.

Inductive log_record : Type :=
| BotStartingUp                            (* info,  line 48 *)
| HealthServerStarted                      (* info,  line 53 *)
| FailedToStartHealthServer (e : exn)      (* error, line 55 *)
| FromWebServer (r : WebServer.log_record).

Record hooked : Type := mkHooked {
  did : list WebServer.io;
  logged : list log_record;
  ended : result unit
}.

(** [on_startup] (lines 46-55), for the module's [web_server]. *)
Definition on_startup (web_server : WebServer.HealthCheckServer)
  (setup_ site_start : result unit) : hooked :=
  let s := WebServer.start_server web_server setup_ site_start in
  let logged_ := BotStartingUp :: map FromWebServer (WebServer.logged s) in
  match WebServer.ended s with
  | Return _ =>
      {| did := WebServer.did s;
         logged := append logged_ HealthServerStarted;
         ended := Return tt |}
  | Raise e =>
      if is_Exception e
      then {| did := WebServer.did s;
              logged := append logged_ (FailedToStartHealthServer e);
              ended := Return tt |}
      else {| did := WebServer.did s; logged := logged_; ended := Raise e |}
  end.

End Bot.

(* ================================================================== *)
(** * Specification-side definitions *)
(* ================================================================== *)

Module Spec.
Import Py.

(** The integer nearest to the rational [q], ties to even. *)
Definition nearest_integer (q : Q) : Z :=
  let f := Qfloor q in
  match (q - inject_Z f ?= 1 # 2)%Q with
  | Lt => f
  | Gt => f + 1
  | Eq => if Z.even f then f else f + 1
  end.

(** The value of the finite binary64 number with mantissa [m] and exponent
    [e], sign apart. *)
Definition magnitude (m : positive) (e : Z) : Q :=
  if 0 <=? e then inject_Z (Zpos m * 2 ^ e)
  else Zpos m # Z.to_pos (2 ^ (- e)).

(** A float rounded to two decimals: the binary64 number nearest to
    [k / 100], for [k] the integer nearest to 100 times the value of the
    float, with the sign of the float.  Zeros, infinities and NaN stay. *)
Definition round2 (x : float) : float :=
  match Prim2SF x with
  | S754_finite s m e =>
      let k := nearest_integer (100 * magnitude m e) in
      let r := nearest_double k 100 in
      if s then PrimFloat.opp r else r
  | _ => x
  end.

(** The success rate: [0] when no ping was counted, otherwise the float
    [(ping_count - failed_pings) / ping_count * 100] rounded to two
    decimals. *)
Definition success_rate (ping_count failed_pings : Z) : number :=
  if ping_count =? 0 then Int 0
  else Float (round2
                (mul_int (truediv (ping_count - failed_pings) ping_count)
                         100)).

(** The rate as a rational number, without any rounding. *)
Definition exact_rate (ping_count failed_pings : Z) : Q :=
  (inject_Z (ping_count - failed_pings) / inject_Z ping_count * 100)%Q.

(** The exact rate rounded to two decimals, in hundredths. *)
Definition exact_hundredths (ping_count failed_pings : Z) : Z :=
  nearest_integer (100 * exact_rate ping_count failed_pings).

(** The reported rate is a float within [501 / 100000] of the exact one:
    half a hundredth for the rounding, and a margin for binary64. *)
Definition reported_close (ping_count failed_pings : Z) : bool :=
  match success_rate ping_count failed_pings with
  | Float y =>
      Qle_bool (Qabs (Q_of_float y - exact_rate ping_count failed_pings))
               (501 # 100000)
  | Int _ => false
  end.

(** [reported_close] for every [ping_count] from 1 to [n] and every
    [failed_pings] from 0 to [ping_count]. *)
Definition all_close (n : nat) : bool :=
  forallb (fun pc =>
             forallb (fun fp => reported_close (Z.of_nat pc) (Z.of_nat fp))
                     (seq 0 (S pc)))
          (seq 1 n).

(** The scenario of the specification: interval 1, timeout 1, two responses
    with status 200, then a refused connection. *)
Definition scenario : option KeepAlive.loop :=
  KeepAlive.run
    [ KeepAlive.Call_start_monitoring;
      KeepAlive.RequestDone 5000 (KeepAlive.Response 200);
      KeepAlive.SleepDone;
      KeepAlive.RequestDone 1005000 (KeepAlive.Response 200);
      KeepAlive.SleepDone;
      KeepAlive.RequestDone 2005000
        (KeepAlive.Failed (ClientError "Connection refused")) ]
    (KeepAlive.idle
       (KeepAlive.__init__ 0 "http://localhost:8080/health"
                           (Some 1) (Some 1))).

(** The monitor has been told to stop and its coroutine is not in a ping:
    it sleeps, cools down, or is over. *)
Definition winding_down (l : KeepAlive.loop) : bool :=
  negb (KeepAlive.is_running (KeepAlive.self l)) &&
  match KeepAlive.at_ l with
  | KeepAlive.Sleeping | KeepAlive.Cooldown
  | KeepAlive.Returned | KeepAlive.Raised _ => true
  | _ => false
  end.

(** The events that end a pending sleep at or before its wake time: the
    sleep elapses, or the task is cancelled. *)
Definition ends_sleep (ev : KeepAlive.event) : bool :=
  match ev with
  | KeepAlive.SleepDone => true
  | KeepAlive.SleepRaised e => is_CancelledError e
  | _ => false
  end.

(** A monitor asleep after its first ping, and the same monitor after
    [stop_monitoring] and the end of the sleep. *)
Definition asleep : KeepAlive.loop :=
  Eval vm_compute in
    Py.default (KeepAlive.idle (KeepAlive.__init__ 0 "u" None None))
      (KeepAlive.run
         [KeepAlive.Call_start_monitoring;
          KeepAlive.RequestDone 5000 (KeepAlive.Response 200)]
         (KeepAlive.idle
            (KeepAlive.__init__ 0 "http://localhost:8080/health"
                                (Some 1) (Some 1)))).

Definition asleep_stopped : KeepAlive.loop :=
  Eval vm_compute in
    Py.default asleep
      (KeepAlive.run [KeepAlive.Call_stop_monitoring; KeepAlive.SleepDone]
                     asleep).

(** [keep_alive] entered with an interval of a minute, and the same run two
    pings later. *)
Definition kept_alive : KeepAlive.loop :=
  Eval vm_compute in
    Py.default asleep
      (KeepAlive.keep_alive 0 "https://your-app.fly.dev/health" (Some 60)).

Definition kept_alive_later : KeepAlive.loop :=
  Eval vm_compute in
    Py.default kept_alive
      (KeepAlive.run
         [KeepAlive.RequestDone 5000 (KeepAlive.Failed TimeoutError);
          KeepAlive.SleepDone;
          KeepAlive.RequestDone 60005000 (KeepAlive.Response 200)]
         kept_alive).

(** [keep_alive] cancelled during its first ping. *)
Definition cancelled_early : KeepAlive.loop :=
  Eval vm_compute in
    Py.default kept_alive
      (KeepAlive.run
         [KeepAlive.RequestDone 5000 (KeepAlive.Failed CancelledError)]
         kept_alive).

(** The number of requests that ended during a sequence of events. *)
Definition finished_requests (evs : list KeepAlive.event) : Z :=
  Z.of_nat
    (List.length
       (filter (fun ev => match ev with
                          | KeepAlive.RequestDone _ _ => true
                          | _ => false
                          end) evs)).

(** The exception that makes the start of the server fail, if one does:
    the one [runner.setup()] raises, or else the one [site.start()] raises. *)
Definition startup_failure (setup_ site_start : result unit) : option exn :=
  match setup_, site_start with
  | Raise e, _ => Some e
  | Return _, Raise e => Some e
  | Return _, Return _ => None
  end.

(** ** Durations, in the specification's words *)

Inductive unit_of_time : Type := Days | Hours | Minutes | Seconds.

(** The value of each unit for a whole number of seconds, by integer
    division. *)
Definition amount (u : unit_of_time) (s : Z) : Z :=
  match u with
  | Days => s / 86400
  | Hours => s mod 86400 / 3600
  | Minutes => s mod 3600 / 60
  | Seconds => s mod 60
  end.

(** A token: a unit with its value; the candidates, largest unit first. *)
Definition all_tokens (s : Z) : list (unit_of_time * Z) :=
  [ (Days, amount Days s); (Hours, amount Hours s);
    (Minutes, amount Minutes s); (Seconds, amount Seconds s) ].

(** A unit is left out when its value is zero, except the seconds when
    every other unit is zero. *)
Definition omitted (s : Z) (t : unit_of_time * Z) : bool :=
  (snd t =? 0) &&
  negb (match fst t with Seconds => true | _ => false end &&
        (amount Days s =? 0) && (amount Hours s =? 0) &&
        (amount Minutes s =? 0)).

Definition tokens (seconds : Q) : list (unit_of_time * Z) :=
  let s := Qfloor seconds in
  filter (fun t => negb (omitted s t)) (all_tokens s).

(** The unit names of the two formatters. *)
Definition short_name (u : unit_of_time) (n : Z) : string :=
  match u with
  | Days => "д" | Hours => "ч" | Minutes => "м" | Seconds => "с"
  end.

Definition long_name (u : unit_of_time) (n : Z) : string :=
  match u with
  | Days => " день" ++ WebServer.suffix n EmptyString "а" "ей"
  | Hours => " час" ++ WebServer.suffix n EmptyString "а" "ов"
  | Minutes => " минут" ++ WebServer.suffix n "а" "ы" EmptyString
  | Seconds => " секунд" ++ WebServer.suffix n "а" "ы" EmptyString
  end.

(** A token as text: the value, then the name of the unit. *)
Definition render (name : unit_of_time -> Z -> string)
  (t : unit_of_time * Z) : string :=
  str (snd t) ++ name (fst t) (snd t).

End Spec.

(* ================================================================== *)
(** * Observations on runs of the monitor *)
(* ================================================================== *)

Module Runs.
Import Py KeepAlive.

(** What an event does to the fields of the monitor, whatever the phase. *)
Definition apply (ev : event) (m : UptimeMonitor) : UptimeMonitor :=
  match ev with
  | Call_start_monitoring => set_is_running m true
  | Call_stop_monitoring => set_is_running m false
  | RequestDone now r => monitor_after (ping_service m now r)
  | SleepDone | SleepRaised _ => m
  end.

(** The requests of a run that ended with a response. *)
Definition answered (ev : event) : bool :=
  match ev with RequestDone _ (Response _) => true | _ => false end.

(** The requests of a run that ended badly: a response with a status other
    than 200, or an [Exception]. *)
Definition failed (ev : event) : bool :=
  match ev with
  | RequestDone _ (Response status) => negb (status =? 200)
  | RequestDone _ (Failed e) => is_Exception e
  | _ => false
  end.

Definition count (f : event -> bool) (evs : list event) : Z :=
  Z.of_nat (List.length (filter f evs)).

(** The clock reading that came with the last response, after [t]. *)
Definition last_answer (t : option datetime) (evs : list event)
  : option datetime :=
  fold_left (fun t ev => match ev with
                         | RequestDone now (Response _) => Some now
                         | _ => t
                         end) evs t.

(** The event delivers [asyncio.CancelledError] to the coroutine. *)
Definition cancels (ev : event) : bool :=
  match ev with
  | RequestDone _ (Failed e) | SleepRaised e => is_CancelledError e
  | _ => false
  end.

(** The event makes a sleep raise an [Exception]. *)
Definition sleep_fault (ev : event) : bool :=
  match ev with SleepRaised e => is_Exception e | _ => false end.

(** Reading a trace from the oldest action on: [slept] says whether a GET
    may come next, which it may at the start and after a sleep.  The result
    is [None] when a GET follows a GET with no sleep in between. *)
Fixpoint scan (slept : bool) (t : list action) : option bool :=
  match t with
  | [] => Some slept
  | HttpGet _ _ :: t => if slept then scan false t else None
  | Sleep _ :: t => scan true t
  | Log _ :: t => scan slept t
  end.

(** What a monitor does: it GETs its [url] with its [timeout], sleeps for
    its [interval] or for 30 seconds, and logs, statistics only when the
    number of counted pings is a multiple of 10. *)
Definition allowed (m : UptimeMonitor) (a : action) : Prop :=
  match a with
  | HttpGet u t => u = url m /\ t = timeout m
  | Sleep s => s = interval m \/ s = 30
  | Log (Stats n _ _) => n mod 10 = 0
  | Log _ => True
  end.

(** [start_monitoring] is neither cooling down after a fault nor ended by
    an [Exception]. *)
Definition calm (p : phase) : bool :=
  match p with
  | Cooldown => false
  | Raised e => negb (is_Exception e)
  | _ => true
  end.

(** The phases in which the coroutine may issue a GET next. *)
Definition may_get (p : phase) : bool :=
  match p with NotStarted | Sleeping => true | _ => false end.

End Runs.

(* ================================================================== *)
(** * src/keep_alive.py: the stand-alone script (lines 161-215) *)
(* ================================================================== *)

Module Main.
Import Py.

(** Lines 172-177. *)
Definition default_urls : list string :=
  [ "http://localhost:8080/health";
    "https://your-app.railway.app/health";
    "https://your-app.render.com/health";
    "https://your-app.fly.dev/health" ].

(** [l[i]] on a list: an index from [-len(l)] to [-1] counts from the end;
    [None] stands for [IndexError]. *)
Definition getitem {A : Type} (l : list A) (i : Z) : option A :=
  let n := Z.of_nat (List.length l) in
  if (0 <=? i) && (i <? n) then nth_error l (Z.to_nat i)
  else if (- n <=? i) && (i <? 0) then nth_error l (Z.to_nat (n + i))
  else None.

(** What the script prints, one constructor per [print]. *)
Inductive printed : Type :=
| ChooseUrl                              (* line 182 *)
| Item (i : Z) (url_ : string)           (* line 184 *)
| InvalidChoice                          (* line 190 *)
| Monitoring (url_ : string)             (* line 202 *)
| IntervalIs (seconds : Z)               (* line 203 *)
| PressCtrlC.                            (* line 204 *)

Section WithInt.

(** [int(s)] on a string, the built-in; [None] stands for [ValueError]. *)
Variable int_ : string -> option Z.

(** [enumerate(default_urls, 1)] with the [print] of line 184. *)
Fixpoint menu (i : Z) (urls : list string) : list printed :=
  match urls with
  | [] => []
  | u :: urls => Item i u :: menu (i + 1) urls
  end.

(** Lines 179-191: the URL, and what is printed on the way.  [argv] is
    [sys.argv]; [answer] is what [input()] returns when it is called. *)
Definition choose_url (argv : list string) (answer : string)
  : string * list printed :=
  match argv with
  | _ :: arg1 :: _ => (arg1, [])
  | _ =>
      let shown := ChooseUrl :: menu 1 default_urls in
      let fallback := nth 0 default_urls EmptyString in
      match int_ answer with
      | Some n =>
          let choice := n - 1 in
          match getitem default_urls choice with
          | Some u => (u, shown)
          | None => (fallback, append shown InvalidChoice)
          end
      | None => (fallback, append shown InvalidChoice)
      end
  end.

Definition ping_url (argv : list string) (answer : string) : string :=
  fst (choose_url argv answer).

(** Lines 194-200. *)
Definition ping_interval (argv : list string) : Z :=
  match argv with
  | _ :: _ :: arg2 :: _ =>
      match int_ arg2 with
      | Some n => n
      | None => 300
      end
  | _ => 300
  end.

(** Lines 202-210 up to the first [await] of the monitor: the three lines
    printed, and [keep_alive(ping_url, ping_interval)] entered at [now]. *)
Definition script (argv : list string) (answer : string) (now : Z)
  : list printed * option KeepAlive.loop :=
  let '(url_, shown) := choose_url argv answer in
  let interval_ := ping_interval argv in
  ((shown ++ [Monitoring url_; IntervalIs interval_; PressCtrlC])%list,
   KeepAlive.keep_alive now url_ (Some interval_)).

End WithInt.

(** A run of the script: [keep_alive.py https://example.org/health 45],
    and the monitor after its first ping was answered. *)
Definition int_45 (s : string) : option Z :=
  if String.eqb s "45" then Some 45 else None.

Definition argv_45 : list string :=
  ["keep_alive.py"; "https://example.org/health"; "45"].

Definition started_45 : KeepAlive.loop :=
  Eval vm_compute in
    Py.default (KeepAlive.idle (KeepAlive.__init__ 0 EmptyString None None))
      (snd (script int_45 argv_45 EmptyString 0)).

Definition pinged_45 : KeepAlive.loop :=
  Eval vm_compute in
    Py.default started_45
      (KeepAlive.run [KeepAlive.RequestDone 5000 (KeepAlive.Response 200)]
                     started_45).

End Main.

(* ================================================================== *)
(** * Facts: the counters of the monitor *)
(* ================================================================== *)

Section Counters.
Import Py KeepAlive.

(** A response never moves [failed_pings] past [ping_count]. *)
Lemma ping_service_response_counters (self : UptimeMonitor) (now : datetime)
  (status : Z) :
  let m := monitor_after (ping_service self now (Response status)) in
  ping_count m = ping_count self + 1 /\
  failed_pings m = failed_pings self + (if status =? 200 then 0 else 1).
Proof.
  unfold monitor_after, ping_service.
  destruct (status =? 200); cbn; lia.
Qed.

(** A request that raises an [Exception] is counted as failed, and only as
    failed: lines 48-59 do not touch [ping_count]. *)
Lemma ping_service_fault_counters (self : UptimeMonitor) (now : datetime)
  (e : exn) :
  is_Exception e = true ->
  let m := monitor_after (ping_service self now (Failed e)) in
  ping_count m = ping_count self /\
  failed_pings m = failed_pings self + 1 /\
  last_ping m = last_ping self.
Proof.
  intros He. unfold monitor_after, ping_service.
  destruct e; cbn in *; try discriminate; auto.
Qed.

(** A response with status 500 is counted once as a ping and once as a
    failure, stamps [last_ping], and makes [ping_service] return [False]. *)
Theorem status_500_counted_once (self : UptimeMonitor) (now : datetime) :
  let x := ping_service self now (Response 500) in
  ping_count (monitor_after x) = ping_count self + 1 /\
  failed_pings (monitor_after x) = failed_pings self + 1 /\
  last_ping (monitor_after x) = Some now /\
  logged_by x = [PingReturnedStatus 500] /\
  outcome_of x = Return false.
Proof. cbn. repeat split. Qed.

(** C1 (the code at the failing input).  On a new monitor, one probe whose
    request times out leaves [ping_count] at 0 and sets [failed_pings] to 1:
    the invariant [failed_pings <= ping_count] is broken after one probe. *)
Theorem timeout_breaks_counter_invariant (t0 now : datetime) (u : string) :
  let m := monitor_after
             (ping_service (__init__ t0 u None None) now (Failed TimeoutError))
  in ping_count m = 0 /\ failed_pings m = 1 /\
     (failed_pings m <=? ping_count m) = false.
Proof. cbn. repeat split. Qed.

(** C2 (the code at the failing input).  A probe whose request raises
    leaves [ping_count] as it was, whatever the exception; and in the
    scenario the monitor ends with [ping_count = 2], [failed_pings = 1] and a
    reported success rate of [50.0], where the specification expects 3, 1
    and 66.67. *)
Theorem fault_is_not_counted_as_ping :
  (forall (self : UptimeMonitor) (now : datetime) (e : exn),
      ping_count (monitor_after (ping_service self now (Failed e)))
      = ping_count self) /\
  option_map (fun l => (ping_count (self l), failed_pings (self l),
                        getitem (get_uptime_stats (self l) 3000000)
                                "success_rate"))
             Spec.scenario
  = Some (2, 1, Some (VNum (Float 50%float))).
Proof.
  split.
  - intros m now e. destruct e; reflexivity.
  - vm_compute. reflexivity.
Qed.




(** An exception outside [Exception] is not handled by [ping_service]: it
    leaves the call, with the monitor untouched. *)
Lemma ping_service_propagates (self : UptimeMonitor) (now : datetime)
  (e : exn) :
  is_Exception e = false ->
  ping_service self now (Failed e) = (self, [], Raise e).
Proof. destruct e; cbn; intros H; reflexivity || discriminate. Qed.

(** ** The reported success rate *)

(** On a fraction, the nearest integer is what [round_half_even] computes
    from numerator and denominator. *)
Lemma nearest_integer_frac (n : Z) (d : positive) :
  Spec.nearest_integer (n # d) = round_half_even n (Zpos d).
Proof.
  unfold Spec.nearest_integer, round_half_even.
  change (Qfloor (n # d)) with (n / Zpos d).
  assert (Hcmp : ((n # d) - inject_Z (n / Zpos d) ?= 1 # 2)%Q
                 = (2 * (n mod Zpos d) ?= Zpos d)).
  { unfold Qcompare, Qminus, Qplus, Qopp, inject_Z. cbn [Qnum Qden].
    rewrite Pos.mul_1_r, Z.mul_1_r, Z.mul_1_l.
    rewrite (Z.mod_eq n (Zpos d)) by discriminate.
    f_equal. ring. }
  rewrite Hcmp. reflexivity.
Qed.

(** The nearest integer is within a half of the number. *)
Lemma nearest_integer_close (q : Q) :
  (Qabs (q - inject_Z (Spec.nearest_integer q)) <= 1 # 2)%Q.
Proof.
  unfold Spec.nearest_integer.
  pose proof (Qfloor_le q) as Hlo. pose proof (Qlt_floor q) as Hhi.
  set (f := Qfloor q) in *.
  assert (Hf1 : (inject_Z (f + 1) == inject_Z f + 1)%Q)
    by (rewrite inject_Z_plus; reflexivity).
  rewrite Hf1 in Hhi.
  apply Qabs_Qle_condition.
  destruct (q - inject_Z f ?= 1 # 2)%Q eqn:Hc.
  - apply Qeq_alt in Hc. destruct (Z.even f); [| rewrite Hf1]; split; lra.
  - apply Qlt_alt in Hc. split; lra.
  - apply Qgt_alt in Hc. rewrite Hf1. split; lra.
Qed.

(** [round(x, 2)] is rounding to two decimals. *)
Lemma round_float_two (x : float) : round_float x 2 = Spec.round2 x.
Proof.
  unfold round_float, Spec.round2.
  destruct (Prim2SF x) as [s | s | | s m e]; try reflexivity.
  assert (Hk : (if 0 <=? e
                then Zpos m * 2 ^ e * 10 ^ 2
                else round_half_even (Zpos m * 10 ^ 2) (2 ^ (- e)))
               = Spec.nearest_integer (100 * Spec.magnitude m e)).
  { unfold Spec.magnitude. change (10 ^ 2) with 100.
    destruct (Z.leb_spec 0 e) as [He | He].
    - change (100 * inject_Z (Z.pos m * 2 ^ e))%Q
        with ((100 * (Z.pos m * 2 ^ e)) # 1).
      rewrite nearest_integer_frac. unfold round_half_even.
      rewrite Z.mod_1_r, Z.div_1_r. change (2 * 0 ?= 1) with Lt.
      cbv iota. ring.
    - assert (Hp : 0 < 2 ^ (- e)) by (apply Z.pow_pos_nonneg; lia).
      change (100 * (Z.pos m # Z.to_pos (2 ^ (- e))))%Q
        with ((100 * Z.pos m) # Z.to_pos (2 ^ (- e))).
      rewrite nearest_integer_frac, Z2Pos.id by exact Hp.
      now rewrite Z.mul_comm. }
  cbv zeta. rewrite Hk. reflexivity.
Qed.

Lemma all_close_100 : Spec.all_close 100 = true.
Proof. vm_compute. reflexivity. Qed.

Lemma all_close_sound (n : nat) (pc fp : Z) :
  Spec.all_close n = true ->
  0 < pc <= Z.of_nat n -> 0 <= fp <= pc ->
  Spec.reported_close pc fp = true.
Proof.
  unfold Spec.all_close. intros Hall Hpc Hfp.
  rewrite forallb_forall in Hall.
  specialize (Hall (Z.to_nat pc)).
  rewrite forallb_forall in Hall.
  specialize (Hall ltac:(apply in_seq; lia) (Z.to_nat fp)
                   ltac:(apply in_seq; lia)).
  now rewrite !Z2Nat.id in Hall by lia.
Qed.

(** C4 (amended).  For a monitor whose [ping_count] is not negative, the
    [success_rate] item of [get_uptime_stats] is the int [0] when
    [ping_count] is 0; otherwise it is the binary64 float
    [(ping_count - failed_pings) / ping_count * 100] rounded to two decimals,
    that is, to the nearest hundredth of the float and not of the exact
    quotient.  For up to 100 pings, of which any number failed, the item is
    within [0.00501] of the exact rate. *)
Theorem stats_success_rate (self : UptimeMonitor) (now : datetime) :
  0 <= ping_count self ->
  let pc := ping_count self in
  let fp := failed_pings self in
  let item := getitem (get_uptime_stats self now) "success_rate" in
  item = Some (VNum (Spec.success_rate pc fp)) /\
  (pc = 0 -> item = Some (VNum (Int 0))) /\
  (0 < pc <= 100 -> 0 <= fp <= pc ->
   exists y, item = Some (VNum (Float y)) /\
             (Qabs (Q_of_float y - Spec.exact_rate pc fp)
              <= 501 # 100000)%Q).
Proof.
  intros Hpc pc fp item.
  assert (Hitem : item = Some (VNum (Spec.success_rate pc fp))).
  { unfold item, pc, fp. cbn. unfold success_rate, Spec.success_rate.
    destruct (Z.ltb_spec 0 (ping_count self)) as [Hpos | Hle].
    - destruct (Z.eqb_spec (ping_count self) 0) as [Hz | _]; [lia |].
      cbn [round]. now rewrite round_float_two.
    - destruct (Z.eqb_spec (ping_count self) 0) as [_ | Hnz];
        [reflexivity | lia]. }
  split; [exact Hitem |]. split.
  - intros Hz. rewrite Hitem. unfold Spec.success_rate. now rewrite Hz.
  - intros Hrange Hfp.
    pose proof (all_close_sound 100 pc fp all_close_100 Hrange Hfp) as Hc.
    unfold Spec.reported_close in Hc. rewrite Hitem.
    destruct (Spec.success_rate pc fp) as [z | y]; [discriminate |].
    exists y. split; [reflexivity |]. now apply Qle_bool_iff.
Qed.

Lemma stats_success_rate_witness :
  let self := set_failed_pings
                (set_ping_count (__init__ 0 "u" None None) 3) 1 in
  let item := getitem (get_uptime_stats self 3000000) "success_rate" in
  item = Some (VNum (Spec.success_rate 3 1)) /\
  (3 = 0 -> item = Some (VNum (Int 0))) /\
  (0 < 3 <= 100 -> 0 <= 1 <= 3 ->
   exists y, item = Some (VNum (Float y)) /\
             (Qabs (Q_of_float y - Spec.exact_rate 3 1) <= 501 # 100000)%Q).
Proof.
  apply (stats_success_rate
           (set_failed_pings (set_ping_count (__init__ 0 "u" None None) 3) 1)
           3000000).
  cbn. lia.
Defined.

(** C4 (counterexample).  With 160 pings counted and 73 of them failed the
    exact rate is 54.375, which rounds to 54.38, 5438 hundredths; the item
    reported is the float for 54.37: the binary64 product is just below
    54.375. *)
Lemma rate_of_87_in_160 :
  let self := set_failed_pings
                (set_ping_count (__init__ 0 "u" None None) 160) 73 in
  (Spec.exact_rate 160 73 == 54375 # 1000)%Q /\
  Spec.exact_hundredths 160 73 = 5438 /\
  getitem (get_uptime_stats self 3000000) "success_rate"
  = Some (VNum (Float (nearest_double 5437 100))) /\
  getitem (get_uptime_stats self 3000000) "success_rate"
  <> Some (VNum (Float (nearest_double
                          (Spec.exact_hundredths 160 73) 100))).
Proof.
  cbv zeta. split; [reflexivity |]. split; [reflexivity |].
  split; [vm_compute; reflexivity |].
  intros H.
  apply (f_equal (fun o => match o with
                           | Some (VNum (Float y)) => Prim2SF y
                           | _ => S754_nan
                           end)) in H.
  vm_compute in H. discriminate H.
Qed.

(** The rate of the scenario as the specification expects it, and as the
    formula gives it for the counters of the code. *)
Example success_rate_2_of_3 : Spec.success_rate 3 1 = Float 66.67%float.
Proof. vm_compute. reflexivity. Qed.

Example success_rate_1_of_2 : Spec.success_rate 2 1 = Float 50%float.
Proof. vm_compute. reflexivity. Qed.

End Counters.

(* ================================================================== *)
(** * Facts: the monitoring loop *)
(* ================================================================== *)

Section Loop.
Import Py KeepAlive.

(** ** What the bookkeeping of a step leaves alone *)

Lemma logs_self (rs : list log_record) (l : loop) : self (logs l rs) = self l.
Proof.
  revert l. induction rs as [| r rs IH]; intros l; [reflexivity |].
  cbn. unfold logs in IH. rewrite IH. reflexivity.
Qed.

Lemma logs_at (rs : list log_record) (l : loop) : at_ (logs l rs) = at_ l.
Proof.
  revert l. induction rs as [| r rs IH]; intros l; [reflexivity |].
  cbn. unfold logs in IH. rewrite IH. reflexivity.
Qed.

Lemma logs_trace (rs : list log_record) (l : loop) :
  trace (logs l rs) = (trace l ++ map Log rs)%list.
Proof.
  revert l. induction rs as [| r rs IH]; intros l; cbn.
  - now rewrite app_nil_r.
  - unfold logs in IH. rewrite IH. cbn. unfold append.
    now rewrite <- app_assoc.
Qed.

Lemma probes_app (t u : list action) :
  probes (t ++ u) = (probes t ++ probes u)%list.
Proof. apply filter_app. Qed.

Lemma probes_logs (rs : list log_record) : probes (map Log rs) = [].
Proof. induction rs as [| r rs IH]; [reflexivity | exact IH]. Qed.

Lemma logs_probes (rs : list log_record) (l : loop) :
  probes (trace (logs l rs)) = probes (trace l).
Proof. now rewrite logs_trace, probes_app, probes_logs, app_nil_r. Qed.

Lemma log_probes (r : log_record) (l : loop) :
  probes (trace (log l r)) = probes (trace l).
Proof. exact (logs_probes [r] l). Qed.

Lemma log_stats_self (l : loop) (now : datetime) :
  self (log_stats l now) = self l.
Proof.
  unfold log_stats. destruct (_ =? 0); [| reflexivity].
  repeat (match goal with |- context [match ?x with _ => _ end] =>
            destruct x end; try reflexivity).
Qed.

Lemma log_stats_at (l : loop) (now : datetime) :
  at_ (log_stats l now) = at_ l.
Proof.
  unfold log_stats. destruct (_ =? 0); [| reflexivity].
  repeat (match goal with |- context [match ?x with _ => _ end] =>
            destruct x end; try reflexivity).
Qed.

Lemma log_stats_probes (l : loop) (now : datetime) :
  probes (trace (log_stats l now)) = probes (trace l).
Proof.
  unfold log_stats. destruct (_ =? 0); [| reflexivity].
  repeat (match goal with |- context [match ?x with _ => _ end] =>
            destruct x end; try reflexivity).
  apply log_probes.
Qed.

(** [ping_service] assigns to the two counters and to [last_ping] only. *)
Lemma ping_service_frame (m : UptimeMonitor) (now : datetime)
  (r : request_result) :
  let m' := monitor_after (ping_service m now r) in
  url m' = url m /\ interval m' = interval m /\ timeout m' = timeout m /\
  start_time m' = start_time m /\ is_running m' = is_running m.
Proof.
  unfold monitor_after, ping_service.
  destruct r as [status | e];
    [destruct (status =? 200) | destruct e]; cbn; auto.
Qed.

Lemma log_self (r : log_record) (l : loop) : self (log l r) = self l.
Proof. reflexivity. Qed.

Lemma log_at (r : log_record) (l : loop) : at_ (log l r) = at_ l.
Proof. reflexivity. Qed.

(** The helpers of [step], seen through the projections. *)
Lemma finish_probes (l : loop) : probes (trace (finish l)) = probes (trace l).
Proof. unfold finish, goto. cbn [trace]. apply log_probes. Qed.

Lemma emit_sleep_probes (l : loop) (n : Z) (p : phase) :
  probes (trace (emit l (Sleep n) p)) = probes (trace l).
Proof.
  unfold emit, append. cbn [trace]. rewrite probes_app. apply app_nil_r.
Qed.

Lemma loop_head_self (l : loop) : self (loop_head l) = self l.
Proof. unfold loop_head. destruct (is_running (self l)); reflexivity. Qed.

Lemma loop_head_probes (l : loop) :
  probes (trace (loop_head l)) = probes (trace l).
Proof.
  unfold loop_head. destruct (is_running (self l)).
  - apply emit_sleep_probes.
  - apply finish_probes.
Qed.

Lemma loop_except_self (l : loop) (e : exn) : self (loop_except l e) = self l.
Proof.
  unfold loop_except.
  destruct (is_CancelledError e), (is_Exception e); reflexivity.
Qed.

Lemma loop_except_probes (l : loop) (e : exn) :
  probes (trace (loop_except l e)) = probes (trace l).
Proof.
  unfold loop_except.
  destruct (is_CancelledError e); [| destruct (is_Exception e)].
  - now rewrite finish_probes, log_probes.
  - now rewrite emit_sleep_probes, log_probes.
  - reflexivity.
Qed.

Lemma issue_ping_probes (l : loop) (p : phase) :
  probes (trace (issue_ping l p))
  = (probes (trace l) ++ [HttpGet (url (self l)) (timeout (self l))])%list.
Proof. unfold issue_ping, emit, append. cbn [trace]. now rewrite probes_app. Qed.

(** The case analysis every fact about [step] starts with: the event, the
    phase, and for a finished request what [ping_service] gives back. *)
Ltac step_cases H ev l :=
  unfold step in H;
  destruct ev as [| | ?now ?r | | ?e];
  destruct (at_ l) eqn:?Hat;
  try discriminate H;
  try match type of H with
      | context [ping_service ?m ?now ?r] =>
          let F := fresh "F" in
          pose proof (ping_service_frame m now r) as F;
          unfold monitor_after in F;
          destruct (ping_service m now r) as [[?m' ?rs] [?b | ?e]];
          cbn [fst snd] in F
      end;
  try match type of H with
      | context [is_running ?m] => destruct (is_running m) eqn:?Hrun
      end;
  injection H as <-.

(** A step leaves the configuration of the monitor as it was. *)
Lemma step_frame (ev : event) (l l' : loop) :
  step ev l = Some l' ->
  url (self l') = url (self l) /\ interval (self l') = interval (self l) /\
  timeout (self l') = timeout (self l) /\
  start_time (self l') = start_time (self l).
Proof.
  intros H. step_cases H ev l;
    rewrite ?loop_head_self, ?loop_except_self, ?log_stats_self;
    cbn [self goto issue_ping emit];
    rewrite ?logs_self, ?log_self; cbn [self with_self]; tauto.
Qed.

(** A step issues at most one GET, to the monitor's [url] and with the
    monitor's [timeout]. *)
Lemma step_probes (ev : event) (l l' : loop) :
  step ev l = Some l' ->
  probes (trace l') = probes (trace l) \/
  probes (trace l')
  = (probes (trace l) ++ [HttpGet (url (self l)) (timeout (self l))])%list.
Proof.
  intros H. step_cases H ev l;
    rewrite ?issue_ping_probes, ?loop_head_probes, ?loop_except_probes,
            ?log_stats_probes;
    cbn [trace goto]; rewrite ?logs_probes, ?logs_self, ?log_probes, ?log_self;
    cbn [trace self with_self set_is_running url timeout]; auto.
Qed.

Lemma run_app (evs1 evs2 : list event) (l : loop) :
  run (evs1 ++ evs2) l
  = match run evs1 l with Some l1 => run evs2 l1 | None => None end.
Proof.
  revert l. induction evs1 as [| ev evs1 IH]; intros l; cbn; [reflexivity |].
  destruct (step ev l); [apply IH | reflexivity].
Qed.

(** ** The counters along a run *)

Lemma ping_service_counters (m : UptimeMonitor) (now : datetime)
  (r : request_result) :
  let m' := monitor_after (ping_service m now r) in
  ping_count m <= ping_count m' <= ping_count m + 1 /\
  failed_pings m <= failed_pings m' <= failed_pings m + 1.
Proof.
  unfold monitor_after, ping_service.
  destruct r as [status | e];
    [destruct (status =? 200) | destruct e]; cbn; lia.
Qed.

(** A step moves each counter by at most one, and only when a request ends. *)
Lemma step_counters (ev : event) (l l' : loop) :
  step ev l = Some l' ->
  let n := Spec.finished_requests [ev] in
  ping_count (self l) <= ping_count (self l') <= ping_count (self l) + n /\
  failed_pings (self l) <= failed_pings (self l')
                        <= failed_pings (self l) + n.
Proof.
  intros H.
  destruct ev as [| | now r | | e]; unfold step in H;
    destruct (at_ l) eqn:Hat; try discriminate H;
    try (pose proof (ping_service_counters (self l) now r) as C;
         unfold monitor_after in C;
         destruct (ping_service (self l) now r) as [[m' rs] [b | e']];
         cbn [fst snd] in C);
    try (destruct (is_running (self l)) eqn:Hrun);
    injection H as <-;
    rewrite ?loop_head_self, ?loop_except_self, ?log_stats_self;
    cbn [self goto issue_ping emit];
    rewrite ?logs_self, ?log_self;
    cbn [self with_self set_is_running ping_count failed_pings];
    cbn; lia.
Qed.

Lemma run_counters (evs : list event) (l l' : loop) :
  run evs l = Some l' ->
  let n := Spec.finished_requests evs in
  ping_count (self l) <= ping_count (self l') <= ping_count (self l) + n /\
  failed_pings (self l) <= failed_pings (self l')
                        <= failed_pings (self l) + n.
Proof.
  revert l. induction evs as [| ev evs IH]; intros l H; cbn in H.
  - injection H as <-. cbn. lia.
  - destruct (step ev l) as [l1 |] eqn:Hstep; [| discriminate].
    pose proof (step_counters ev l l1 Hstep) as S1.
    pose proof (IH l1 H) as S2. cbv zeta in *.
    assert (Hn : Spec.finished_requests (ev :: evs)
                 = Spec.finished_requests [ev] + Spec.finished_requests evs).
    { unfold Spec.finished_requests. cbn [filter].
      destruct ev; cbn [List.length]; lia. }
    rewrite Hn. lia.
Qed.

(** Along every run of a new monitor neither counter is negative, and
    neither exceeds the number of requests that have ended. *)
Theorem counters_bounded (t0 : datetime) (url_ : string)
  (interval_ timeout_ : option Z) (evs : list event) (l : loop) :
  run evs (idle (__init__ t0 url_ interval_ timeout_)) = Some l ->
  0 <= ping_count (self l) <= Spec.finished_requests evs /\
  0 <= failed_pings (self l) <= Spec.finished_requests evs.
Proof.
  intros H. pose proof (run_counters evs _ l H) as C. cbn in C. lia.
Qed.

Lemma counters_bounded_witness :
  0 <= ping_count (self Spec.kept_alive_later)
    <= Spec.finished_requests
         [Call_start_monitoring; RequestDone 5000 (Failed TimeoutError);
          SleepDone; RequestDone 60005000 (Response 200)] /\
  0 <= failed_pings (self Spec.kept_alive_later)
    <= Spec.finished_requests
         [Call_start_monitoring; RequestDone 5000 (Failed TimeoutError);
          SleepDone; RequestDone 60005000 (Response 200)].
Proof.
  apply (counters_bounded 0 "https://your-app.fly.dev/health" (Some 60) None
           [Call_start_monitoring; RequestDone 5000 (Failed TimeoutError);
            SleepDone; RequestDone 60005000 (Response 200)]
           Spec.kept_alive_later).
  reflexivity.
Defined.

(** [start_monitoring] raises the flag and issues its first GET at once,
    before any sleep. *)
Theorem first_ping_is_immediate (m : UptimeMonitor) :
  step Call_start_monitoring (idle m)
  = Some {| self := set_is_running m true;
            at_ := FirstPing;
            trace := [ Log (StartingMonitor (url m));
                       Log (PingInterval (interval m));
                       Log (RequestTimeout (timeout m));
                       HttpGet (url m) (timeout m) ] |}.
Proof. reflexivity. Qed.

(** ** Stopping a sleeping monitor *)

Lemma loop_head_at (l : loop) :
  at_ (loop_head l) = if is_running (self l) then Sleeping else Returned.
Proof. unfold loop_head. destruct (is_running (self l)); reflexivity. Qed.

Lemma loop_except_at (l : loop) (e : exn) :
  at_ (loop_except l e)
  = if is_CancelledError e then Returned
    else if is_Exception e then Cooldown else Raised e.
Proof.
  unfold loop_except.
  destruct (is_CancelledError e), (is_Exception e); reflexivity.
Qed.

(** Once the flag is down and no ping is in flight, a step keeps the flag
    down, issues no GET, and ends the coroutine if it ends the sleep. *)
Lemma step_winding_down (ev : event) (l l' : loop) :
  Spec.winding_down l = true ->
  step ev l = Some l' ->
  Spec.winding_down l' = true /\
  probes (trace l') = probes (trace l) /\
  (Spec.ends_sleep ev || terminated (at_ l) = true ->
   terminated (at_ l') = true).
Proof.
  unfold Spec.winding_down. intros Hw H.
  apply andb_true_iff in Hw as [Hrun Hph].
  apply negb_true_iff in Hrun.
  unfold step in H.
  destruct ev as [| | now r | | e]; destruct (at_ l) eqn:Hat;
    try discriminate; rewrite ?Hrun in H; injection H as <-;
    rewrite ?loop_head_at, ?loop_head_self, ?loop_head_probes,
            ?loop_except_at, ?loop_except_self, ?loop_except_probes,
            ?log_probes, ?log_self, ?log_at, ?Hrun;
    cbn [self at_ trace with_self goto set_is_running is_running negb andb
         Spec.ends_sleep terminated orb];
    rewrite ?Hat; try (repeat split; auto; fail).
  all: destruct e; rewrite ?Hrun; cbn; repeat split; auto.
Qed.

Lemma run_winding_down (evs : list event) (l l' : loop) :
  Spec.winding_down l = true ->
  run evs l = Some l' ->
  Spec.winding_down l' = true /\
  probes (trace l') = probes (trace l) /\
  (existsb Spec.ends_sleep evs || terminated (at_ l) = true ->
   terminated (at_ l') = true).
Proof.
  revert l. induction evs as [| ev evs IH]; intros l Hw H; cbn in H.
  - injection H as <-. cbn. auto.
  - destruct (step ev l) as [l1 |] eqn:Hstep; [| discriminate].
    destruct (step_winding_down ev l l1 Hw Hstep) as (Hw1 & Hp1 & Ht1).
    destruct (IH l1 Hw1 H) as (Hw' & Hp' & Ht').
    split; [exact Hw' |]. split; [congruence |].
    intros Hends. apply Ht'. cbn in Hends.
    destruct (existsb Spec.ends_sleep evs); [reflexivity |].
    cbn. apply Ht1. rewrite orb_false_r in Hends. exact Hends.
Qed.

(** C7.  When [stop_monitoring] is called while the loop sleeps, then
    whatever happens next, [is_running] stays false and no further GET is
    issued; once the pending sleep has ended (it elapsed, or the task was
    cancelled) [start_monitoring] is over; and when the sleep elapses the
    loop returns at that wake-up. *)
Theorem stop_while_sleeping (l : loop) (evs : list event) (l' : loop) :
  at_ l = Sleeping ->
  run (Call_stop_monitoring :: evs) l = Some l' ->
  is_running (self l') = false /\
  probes (trace l') = probes (trace l) /\
  (existsb Spec.ends_sleep evs = true -> terminated (at_ l') = true) /\
  (exists l1, run [Call_stop_monitoring; SleepDone] l = Some l1 /\
              at_ l1 = Returned /\
              probes (trace l1) = probes (trace l)).
Proof.
  intros Hat Hrun.
  change (run (Call_stop_monitoring :: evs) l)
    with (run evs (log (with_self l (set_is_running (self l) false))
                       StoppingMonitor)) in Hrun.
  set (l0 := log (with_self l (set_is_running (self l) false))
                 StoppingMonitor) in *.
  assert (Hw0 : Spec.winding_down l0 = true).
  { unfold Spec.winding_down, l0. rewrite log_self, log_at. cbn.
    now rewrite Hat. }
  assert (Hp0 : probes (trace l0) = probes (trace l)).
  { unfold l0. now rewrite log_probes. }
  destruct (run_winding_down evs l0 l' Hw0 Hrun) as (Hw' & Hp' & Ht').
  apply andb_true_iff in Hw' as [Hr' _]. apply negb_true_iff in Hr'.
  split; [exact Hr' |]. split; [congruence |]. split.
  - intros Hex. apply Ht'. now rewrite Hex.
  - exists (loop_head l0). split.
    + change (run [Call_stop_monitoring; SleepDone] l)
        with (run [SleepDone] l0).
      unfold run, step. change (at_ l0) with (at_ l). rewrite Hat.
      reflexivity.
    + rewrite loop_head_at, loop_head_probes. split; [reflexivity | exact Hp0].
Qed.

Lemma stop_while_sleeping_witness :
  is_running (self Spec.asleep_stopped) = false /\
  probes (trace Spec.asleep_stopped) = probes (trace Spec.asleep) /\
  (existsb Spec.ends_sleep [SleepDone] = true ->
   terminated (at_ Spec.asleep_stopped) = true) /\
  (exists l1, run [Call_stop_monitoring; SleepDone] Spec.asleep = Some l1 /\
              at_ l1 = Returned /\
              probes (trace l1) = probes (trace Spec.asleep)).
Proof.
  apply (stop_while_sleeping Spec.asleep [SleepDone] Spec.asleep_stopped).
  - reflexivity.
  - reflexivity.
Defined.

(** ** The requests of [keep_alive] *)

Lemma run_frame (evs : list event) (l l' : loop) :
  run evs l = Some l' ->
  url (self l') = url (self l) /\ interval (self l') = interval (self l) /\
  timeout (self l') = timeout (self l).
Proof.
  revert l. induction evs as [| ev evs IH]; intros l H; cbn in H.
  - injection H as <-. auto.
  - destruct (step ev l) as [l1 |] eqn:Hstep; [| discriminate].
    destruct (step_frame ev l l1 Hstep) as (Hu & Hi & Ht & _).
    destruct (IH l1 H) as (Hu' & Hi' & Ht'). repeat split; congruence.
Qed.

(** Every GET of a run goes to the [url] and carries the [timeout] the
    monitor was built with. *)
Lemma run_probes (evs : list event) (l l' : loop) :
  run evs l = Some l' ->
  Forall (eq (HttpGet (url (self l)) (timeout (self l)))) (probes (trace l)) ->
  Forall (eq (HttpGet (url (self l)) (timeout (self l)))) (probes (trace l')).
Proof.
  revert l. induction evs as [| ev evs IH]; intros l H Hall; cbn in H.
  - injection H as <-. exact Hall.
  - destruct (step ev l) as [l1 |] eqn:Hstep; [| discriminate].
    destruct (step_frame ev l l1 Hstep) as (Hu & _ & Ht & _).
    rewrite <- Hu, <- Ht. apply IH; [exact H |]. rewrite Hu, Ht.
    destruct (step_probes ev l l1 Hstep) as [-> | ->]; [exact Hall |].
    apply Forall_app. split; [exact Hall |]. constructor; [reflexivity |].
    constructor.
Qed.

(** C10.  [keep_alive] builds its monitor with the default timeout of 10
    seconds, whatever [url] and [interval] it is given, and every GET issued
    afterwards goes to that [url] with a total timeout of 10. *)
Theorem keep_alive_default_timeout (now : datetime) (url_ : string)
  (interval_ : option Z) (l0 : loop) (evs : list event) (l : loop) :
  keep_alive now url_ interval_ = Some l0 ->
  run evs l0 = Some l ->
  timeout (self l0) = 10 /\
  interval (self l0) = default 300 interval_ /\
  timeout (self l) = 10 /\
  Forall (eq (HttpGet url_ 10)) (probes (trace l)).
Proof.
  intros H0 Hrun. unfold keep_alive in H0.
  cbn in H0. injection H0 as <-.
  destruct (run_frame evs _ l Hrun) as (Hu & _ & Ht).
  cbn in Hu, Ht. repeat split; try reflexivity; try exact Ht.
  pose proof (run_probes evs _ l Hrun) as Hp. cbn in Hp.
  apply Hp. repeat constructor.
Qed.

Lemma keep_alive_default_timeout_witness :
  timeout (self Spec.kept_alive) = 10 /\
  interval (self Spec.kept_alive) = default 300 (Some 60) /\
  timeout (self Spec.kept_alive_later) = 10 /\
  Forall (eq (HttpGet "https://your-app.fly.dev/health" 10))
         (probes (trace Spec.kept_alive_later)).
Proof.
  apply (keep_alive_default_timeout
           0 "https://your-app.fly.dev/health" (Some 60) Spec.kept_alive
           [RequestDone 5000 (Failed TimeoutError); SleepDone;
            RequestDone 60005000 (Response 200)]
           Spec.kept_alive_later).
  - reflexivity.
  - reflexivity.
Defined.

End Loop.

(* ================================================================== *)
(** * Facts: the two duration formatters *)
(* ================================================================== *)

Section Durations.
Import Py.

(** ** [//], [%] and [int()] on exact values, in terms of the whole seconds *)

Lemma int_inject_Z (z : Z) : int (inject_Z z) = z.
Proof. unfold int. cbn. apply Z.quot_1_r. Qed.

Lemma Qfloor_div (x : Q) (d : positive) :
  Qfloor (x / inject_Z (Zpos d)) = Qfloor x / Zpos d.
Proof.
  destruct x as [n m]. unfold Qdiv, Qinv, Qmult, Qfloor. cbn.
  rewrite Z.mul_1_r, Pos2Z.inj_mul.
  symmetry. apply Z.div_div; lia.
Qed.

Lemma Qfloor_mod (x : Q) (d : positive) :
  Qfloor (mod_ x (Zpos d)) = Qfloor x mod Zpos d /\
  0 <= Qnum (mod_ x (Zpos d)).
Proof.
  unfold mod_. rewrite Qfloor_div.
  destruct x as [n m].
  change (Qfloor (n # m)) with (n / Zpos m).
  remember (n / Zpos m) as q eqn:Hq.
  remember (q / Zpos d) as f eqn:Hf.
  unfold Qminus, Qplus, Qopp, Qmult, inject_Z, Qfloor.
  cbn [Qnum Qden].
  change (Z.pos (1 * 1)) with 1. change (m * (1 * 1))%positive with (m * 1)%positive.
  rewrite Pos.mul_1_r, Z.mul_1_r.
  pose proof (Z.div_mod n (Zpos m) ltac:(lia)) as Hn.
  pose proof (Z.mod_pos_bound n (Zpos m) ltac:(lia)) as Hr.
  pose proof (Z.div_mod q (Zpos d) ltac:(lia)) as Hqd.
  pose proof (Z.mod_pos_bound q (Zpos d) ltac:(lia)) as Hr'.
  rewrite <- Hq in Hn. rewrite <- Hf in Hqd.
  assert (E : n + - (Z.pos d * f) * Z.pos m
              = (q mod Z.pos d) * Z.pos m + n mod Z.pos m) by nia.
  rewrite E. split.
  - rewrite Z.div_add_l by lia. rewrite Z.div_small by lia. lia.
  - nia.
Qed.

Lemma int_nonneg (x : Q) : 0 <= Qnum x -> int x = Qfloor x.
Proof.
  destruct x as [n m]. unfold int, Qfloor. cbn [Qnum Qden]. intros Hn.
  apply Z.quot_div_nonneg; lia.
Qed.

(** The four integers both formatters compute (lines 82-85 of
    [keep_alive.py], lines 112-115 of [web_server.py]). *)
Lemma days_amount (seconds : Q) :
  int (floordiv seconds 86400) = Spec.amount Spec.Days (Qfloor seconds).
Proof. unfold floordiv. rewrite int_inject_Z. apply Qfloor_div. Qed.

Lemma hours_amount (seconds : Q) :
  int (floordiv (mod_ seconds 86400) 3600)
  = Spec.amount Spec.Hours (Qfloor seconds).
Proof.
  unfold floordiv. rewrite int_inject_Z, Qfloor_div.
  now rewrite (proj1 (Qfloor_mod seconds 86400)).
Qed.

Lemma minutes_amount (seconds : Q) :
  int (floordiv (mod_ seconds 3600) 60)
  = Spec.amount Spec.Minutes (Qfloor seconds).
Proof.
  unfold floordiv. rewrite int_inject_Z, Qfloor_div.
  now rewrite (proj1 (Qfloor_mod seconds 3600)).
Qed.

Lemma secs_amount (seconds : Q) :
  int (mod_ seconds 60) = Spec.amount Spec.Seconds (Qfloor seconds).
Proof.
  destruct (Qfloor_mod seconds 60) as [Hfl Hnum].
  rewrite int_nonneg by exact Hnum. exact Hfl.
Qed.

Lemma amount_nonneg (u : Spec.unit_of_time) (s : Z) :
  0 <= s -> 0 <= Spec.amount u s.
Proof.
  intros Hs. destruct u; cbn.
  - apply Z.div_pos; lia.
  - apply Z.div_pos; [apply Z.mod_pos_bound |]; lia.
  - apply Z.div_pos; [apply Z.mod_pos_bound |]; lia.
  - apply Z.mod_pos_bound; lia.
Qed.

Lemma Qfloor_nonneg (x : Q) : (0 <= x)%Q -> 0 <= Qfloor x.
Proof.
  intros Hx. change 0 with (Qfloor 0). now apply Qfloor_resp_le.
Qed.

(** What both formatters do with the four integers, for any unit names and
    separator. *)
Lemma parts_tokens (name : Spec.unit_of_time -> Z -> string) (s : Z) :
  0 <= s ->
  let days := Spec.amount Spec.Days s in
  let hours := Spec.amount Spec.Hours s in
  let minutes := Spec.amount Spec.Minutes s in
  let secs := Spec.amount Spec.Seconds s in
  let parts := [] in
  let parts :=
    if 0 <? days then append parts (str days ++ name Spec.Days days)
    else parts in
  let parts :=
    if 0 <? hours then append parts (str hours ++ name Spec.Hours hours)
    else parts in
  let parts :=
    if 0 <? minutes
    then append parts (str minutes ++ name Spec.Minutes minutes)
    else parts in
  let parts :=
    if (0 <? secs) || not_ parts
    then append parts (str secs ++ name Spec.Seconds secs)
    else parts in
  parts
  = map (Spec.render name)
        (filter (fun t => negb (Spec.omitted s t)) (Spec.all_tokens s)).
Proof.
  intros Hs.
  pose proof (amount_nonneg Spec.Days s Hs) as Hd.
  pose proof (amount_nonneg Spec.Hours s Hs) as Hh.
  pose proof (amount_nonneg Spec.Minutes s Hs) as Hm.
  pose proof (amount_nonneg Spec.Seconds s Hs) as Hc.
  unfold Spec.all_tokens, Spec.omitted, Spec.render. cbn [filter fst snd].
  generalize dependent (Spec.amount Spec.Days s).
  generalize dependent (Spec.amount Spec.Hours s).
  generalize dependent (Spec.amount Spec.Minutes s).
  generalize dependent (Spec.amount Spec.Seconds s).
  intros c Hc m Hm h Hh d Hd. cbv zeta.
  destruct (Z.ltb_spec 0 d), (Z.eqb_spec d 0); try lia;
  destruct (Z.ltb_spec 0 h), (Z.eqb_spec h 0); try lia;
  destruct (Z.ltb_spec 0 m), (Z.eqb_spec m 0); try lia;
  destruct (Z.ltb_spec 0 c), (Z.eqb_spec c 0); try lia;
  reflexivity.
Qed.

Lemma format_duration_parts (seconds : Q) :
  (0 <= seconds)%Q ->
  KeepAlive.format_duration seconds
  = join " " (map (Spec.render Spec.short_name) (Spec.tokens seconds)).
Proof.
  intros Hs. unfold KeepAlive.format_duration, Spec.tokens.
  rewrite days_amount, hours_amount, minutes_amount, secs_amount.
  f_equal.
  exact (parts_tokens Spec.short_name (Qfloor seconds) (Qfloor_nonneg _ Hs)).
Qed.

Lemma format_uptime_parts (seconds : Q) :
  (0 <= seconds)%Q ->
  WebServer.format_uptime seconds
  = join ", " (map (Spec.render Spec.long_name) (Spec.tokens seconds)).
Proof.
  intros Hs. unfold WebServer.format_uptime, Spec.tokens.
  rewrite days_amount, hours_amount, minutes_amount, secs_amount.
  f_equal.
  exact (parts_tokens Spec.long_name (Qfloor seconds) (Qfloor_nonneg _ Hs)).
Qed.

Lemma all_tokens_In (s : Z) (u : Spec.unit_of_time) (v : Z) :
  In (u, v) (Spec.all_tokens s) <-> v = Spec.amount u s.
Proof.
  unfold Spec.all_tokens. cbn [In]. split.
  - intros [H | [H | [H | [H | []]]]]; injection H as <- <-; reflexivity.
  - intros ->. destruct u; auto.
Qed.

(** C8.  For nonnegative [seconds], [format_duration] joins the tokens of
    the whole seconds: each unit's value comes from integer division, the
    units come in the order days, hours, minutes, seconds, a unit is shown
    exactly when its value is not zero or it is the seconds and every other
    unit is zero, and so at least one token is shown; 0 gives the zero-seconds
    token and 90061 all four tokens. *)
Theorem format_duration_tokens (seconds : Q) :
  (0 <= seconds)%Q ->
  let s := Qfloor seconds in
  KeepAlive.format_duration seconds
  = join " " (map (Spec.render Spec.short_name) (Spec.tokens seconds)) /\
  Spec.tokens seconds
  = filter (fun t => negb (Spec.omitted s t))
      [ (Spec.Days, s / 86400); (Spec.Hours, s mod 86400 / 3600);
        (Spec.Minutes, s mod 3600 / 60); (Spec.Seconds, s mod 60) ] /\
  (forall u v,
      In (u, v) (Spec.tokens seconds) <->
      v = Spec.amount u s /\
      (v <> 0 \/
       u = Spec.Seconds /\ Spec.amount Spec.Days s = 0 /\
       Spec.amount Spec.Hours s = 0 /\ Spec.amount Spec.Minutes s = 0)) /\
  Spec.tokens seconds <> [] /\
  KeepAlive.format_duration 0 = "0с" /\
  KeepAlive.format_duration 90061 = "1д 1ч 1м 1с".
Proof.
  intros Hs s. split; [exact (format_duration_parts seconds Hs) |].
  split; [reflexivity |]. split; [| split; [| split; reflexivity]].
  - intros u v. unfold Spec.tokens. fold s.
    rewrite filter_In, all_tokens_In. unfold Spec.omitted. cbn [fst snd].
    split.
    + intros [-> Hshown]. split; [reflexivity |].
      destruct (Z.eqb_spec (Spec.amount u s) 0) as [Hz | Hnz]; [| now left].
      right. cbn in Hshown. apply negb_true_iff, negb_false_iff in Hshown.
      repeat (apply andb_true_iff in Hshown as [Hshown ?]).
      destruct u; try discriminate. repeat split; now apply Z.eqb_eq.
    + intros [-> [Hnz | (-> & Hd & Hh & Hm)]]; (split; [reflexivity |]).
      * apply Z.eqb_neq in Hnz. now rewrite Hnz.
      * rewrite Hd, Hh, Hm. cbn. now rewrite andb_false_r.
  - unfold Spec.tokens, Spec.all_tokens, Spec.omitted. fold s.
    cbn [filter fst snd].
    destruct (Spec.amount Spec.Days s =? 0),
             (Spec.amount Spec.Hours s =? 0),
             (Spec.amount Spec.Minutes s =? 0),
             (Spec.amount Spec.Seconds s =? 0); cbn; discriminate.
Qed.

Lemma format_duration_tokens_witness :
  let s := Qfloor 90061 in
  KeepAlive.format_duration 90061
  = join " " (map (Spec.render Spec.short_name) (Spec.tokens 90061)) /\
  Spec.tokens 90061
  = filter (fun t => negb (Spec.omitted s t))
      [ (Spec.Days, s / 86400); (Spec.Hours, s mod 86400 / 3600);
        (Spec.Minutes, s mod 3600 / 60); (Spec.Seconds, s mod 60) ] /\
  (forall u v,
      In (u, v) (Spec.tokens 90061) <->
      v = Spec.amount u s /\
      (v <> 0 \/
       u = Spec.Seconds /\ Spec.amount Spec.Days s = 0 /\
       Spec.amount Spec.Hours s = 0 /\ Spec.amount Spec.Minutes s = 0)) /\
  Spec.tokens 90061 <> [] /\
  KeepAlive.format_duration 0 = "0с" /\
  KeepAlive.format_duration 90061 = "1д 1ч 1м 1с".
Proof.
  apply (format_duration_tokens 90061). unfold Qle. cbn. lia.
Defined.

(** C9.  For nonnegative [seconds], the two formatters render one and the
    same list of tokens (the same units, in the same order, with the same
    values); [format_duration] attaches the short unit names and joins with
    a space, [format_uptime] attaches the long names, chosen by the value,
    and joins with a comma and a space. *)
Theorem formatters_share_tokens (seconds : Q) :
  (0 <= seconds)%Q ->
  KeepAlive.format_duration seconds
  = join " " (map (Spec.render Spec.short_name) (Spec.tokens seconds)) /\
  WebServer.format_uptime seconds
  = join ", " (map (Spec.render Spec.long_name) (Spec.tokens seconds)).
Proof.
  intros Hs. split.
  - exact (format_duration_parts seconds Hs).
  - exact (format_uptime_parts seconds Hs).
Qed.

Lemma formatters_share_tokens_witness :
  KeepAlive.format_duration (7265 # 2)
  = join " " (map (Spec.render Spec.short_name) (Spec.tokens (7265 # 2))) /\
  WebServer.format_uptime (7265 # 2)
  = join ", " (map (Spec.render Spec.long_name) (Spec.tokens (7265 # 2))).
Proof.
  apply (formatters_share_tokens (7265 # 2)). unfold Qle. cbn. lia.
Defined.

Example format_uptime_90061 :
  WebServer.format_uptime 90061 = "1 день, 1 час, 1 минута, 1 секунда".
Proof. vm_compute. reflexivity. Qed.

Example tokens_3632_5 :
  Spec.tokens (7265 # 2) = [(Spec.Hours, 1); (Spec.Seconds, 32)].
Proof. vm_compute. reflexivity. Qed.

End Durations.

(* ================================================================== *)
(** * Facts: the health server *)
(* ================================================================== *)

Section Server.
Import Py WebServer.

(** [GET /] and [GET /health] answer 200 with status "healthy", the name
    of the service, the time and the seconds since the server was built,
    with or without a bot and whatever [get_me()] would do. *)
Theorem health_route (t0 now : datetime) (bot_ : option Bot)
  (port_ : option Z) (me : result User) :
  let r := {| status := 200;
              body := JObj [ ("status", JStr "healthy");
                             ("service", JStr "telegram-giveaway-bot");
                             ("timestamp", JIso now);
                             ("uptime_seconds",
                                JNum (Float (total_seconds (now - t0)))) ] |}
  in
  get (__init__ t0 bot_ port_) "/" now me = Some ([], Return r) /\
  get (__init__ t0 bot_ port_) "/health" now me = Some ([], Return r).
Proof. split; reflexivity. Qed.

(** C6.  [GET /status] on a server without a bot answers 200 with
    [bot_status] "not_initialized"; with a bot whose [get_me()] returns, 200
    with "running" and the bot's username, id and name; with a bot whose
    [get_me()] raises an [Exception], 500 with "error" and the exception's
    text, the handler returning that response instead of raising. *)
Theorem status_route (t0 now : datetime) (port_ : option Z) (b : Bot)
  (bot_info : User) (e : exn) :
  is_Exception e = true ->
  (forall me : result User,
      get (__init__ t0 None port_) "/status" now me
      = Some ([], Return {| status := 200;
                            body := JObj [ ("bot_status", JStr "not_initialized");
                                           ("timestamp", JIso now) ] |})) /\
  get (__init__ t0 (Some b) port_) "/status" now (Return bot_info)
  = Some ([], Return {| status := 200;
                        body := JObj [ ("bot_status", JStr "running");
                                       ("bot_username", JStr (username bot_info));
                                       ("bot_id", JNum (Int (id bot_info)));
                                       ("bot_name", JStr (first_name bot_info));
                                       ("timestamp", JIso now) ] |}) /\
  get (__init__ t0 (Some b) port_) "/status" now (Raise e)
  = Some ([ErrorGettingBotStatus e],
          Return {| status := 500;
                    body := JObj [ ("bot_status", JStr "error");
                                   ("error", JStr (str_exn e));
                                   ("timestamp", JIso now) ] |}).
Proof.
  intros He. split; [| split].
  - intros me. reflexivity.
  - reflexivity.
  - unfold get. cbn [__init__ routes setup_routes resolve String.eqb].
    cbn. rewrite He. reflexivity.
Qed.

Lemma status_route_witness :
  (forall me : result User,
      get (__init__ 0 None None) "/status" 9 me
      = Some ([], Return {| status := 200;
                            body := JObj [ ("bot_status", JStr "not_initialized");
                                           ("timestamp", JIso 9) ] |})) /\
  get (__init__ 0 (Some (mkBot "123:abc")) None) "/status" 9
      (Return (mkUser "giveaway_bot" 123 "Giveaway"))
  = Some ([], Return {| status := 200;
                        body := JObj [ ("bot_status", JStr "running");
                                       ("bot_username", JStr "giveaway_bot");
                                       ("bot_id", JNum (Int 123));
                                       ("bot_name", JStr "Giveaway");
                                       ("timestamp", JIso 9) ] |}) /\
  get (__init__ 0 (Some (mkBot "123:abc")) None) "/status" 9
      (Raise (OtherException "Unauthorized"))
  = Some ([ErrorGettingBotStatus (OtherException "Unauthorized")],
          Return {| status := 500;
                    body := JObj [ ("bot_status", JStr "error");
                                   ("error", JStr "Unauthorized");
                                   ("timestamp", JIso 9) ] |}).
Proof.
  apply (status_route 0 9 None (mkBot "123:abc")
           (mkUser "giveaway_bot" 123 "Giveaway")
           (OtherException "Unauthorized")).
  reflexivity.
Defined.

(** C5 (counterexample).  With the port in use, [on_startup] of [bot.py]
    returns normally: the failure of [start_server] does not leave it. *)
Lemma on_startup_swallows_bind_failure :
  let e := OSError "[Errno 98] address already in use" in
  let web_server := __init__ 0 (Some (mkBot "123:abc")) (Some 8080) in
  ended (start_server web_server (Return tt) (Raise e)) = Raise e /\
  Bot.ended (Bot.on_startup web_server (Return tt) (Raise e)) = Return tt /\
  Bot.ended (Bot.on_startup web_server (Return tt) (Raise e)) <> Raise e.
Proof. cbn. repeat split. discriminate. Qed.

(** C5 (amended).  When the start of the server fails with an [Exception],
    [start_server] logs it and raises it again to its caller, after asking
    the system at most once for each step; its caller in [bot.py],
    [on_startup], logs the failure and returns normally. *)
Theorem start_failure_reraised_then_absorbed (web_server : HealthCheckServer)
  (setup_ site_start : result unit) (e : exn) :
  Spec.startup_failure setup_ site_start = Some e ->
  is_Exception e = true ->
  let s := start_server web_server setup_ site_start in
  let h := Bot.on_startup web_server setup_ site_start in
  ended s = Raise e /\
  logged s = [ErrorStartingServer e] /\
  NoDup (did s) /\
  Bot.ended h = Return tt /\
  Bot.logged h = [ Bot.BotStartingUp;
                   Bot.FromWebServer (ErrorStartingServer e);
                   Bot.FailedToStartHealthServer e ] /\
  Bot.did h = did s.
Proof.
  intros Hfail He.
  assert (Hs : start_server web_server setup_ site_start
               = start_server_except
                   match setup_ with
                   | Raise _ => [RunnerSetup]
                   | Return _ => [RunnerSetup; SiteStart "0.0.0.0" (port web_server)]
                   end e).
  { unfold start_server, Spec.startup_failure in *.
    destruct setup_ as [[] | e1]; [destruct site_start as [[] | e2] |];
      try discriminate; injection Hfail as ->; reflexivity. }
  unfold Bot.on_startup. rewrite Hs. unfold start_server_except.
  rewrite He. cbn [ended logged did map].
  rewrite He. cbn [Bot.ended Bot.logged Bot.did append app].
  repeat split.
  destruct setup_; repeat constructor; cbn; intuition discriminate.
Qed.

Lemma start_failure_reraised_then_absorbed_witness :
  let e := OSError "[Errno 98] address already in use" in
  let web_server := __init__ 0 (Some (mkBot "123:abc")) (Some 8080) in
  let s := start_server web_server (Return tt) (Raise e) in
  let h := Bot.on_startup web_server (Return tt) (Raise e) in
  ended s = Raise e /\
  logged s = [ErrorStartingServer e] /\
  NoDup (did s) /\
  Bot.ended h = Return tt /\
  Bot.logged h = [ Bot.BotStartingUp;
                   Bot.FromWebServer (ErrorStartingServer e);
                   Bot.FailedToStartHealthServer e ] /\
  Bot.did h = did s.
Proof.
  intros e web_server.
  apply (start_failure_reraised_then_absorbed web_server (Return tt) (Raise e) e).
  - reflexivity.
  - reflexivity.
Defined.

(** A start without a failure ends with the runner, and [on_startup] then
    reports the server as started. *)
Lemma start_server_ok (web_server : HealthCheckServer) :
  ended (start_server web_server (Return tt) (Return tt))
  = Return (Runner (port web_server)) /\
  Bot.ended (Bot.on_startup web_server (Return tt) (Return tt)) = Return tt.
Proof. split; reflexivity. Qed.

End Server.

(* ================================================================== *)
(** * Facts: what every run of the monitor keeps *)
(* ================================================================== *)

Section Runs.
Import Py KeepAlive.

(** The fields of the monitor after a step depend on the event only. *)
Lemma step_self (ev : event) (l l' : loop) :
  step ev l = Some l' -> self l' = Runs.apply ev (self l).
Proof.
  intros H. unfold step in H.
  destruct ev as [| | now r | | e]; destruct (at_ l) eqn:Hat;
    try discriminate H; cbn [Runs.apply]; unfold monitor_after;
    try (destruct (ping_service (self l) now r) as [[m' rs] [b | e']];
         cbn [fst snd]);
    try (destruct (is_running (self l)) eqn:Hrun);
    injection H as <-;
    rewrite ?loop_head_self, ?loop_except_self, ?log_stats_self;
    cbn [self goto issue_ping emit];
    rewrite ?logs_self, ?log_self; reflexivity.
Qed.

Lemma count_cons (f : event -> bool) (ev : event) (evs : list event) :
  Runs.count f (ev :: evs) = (if f ev then 1 else 0) + Runs.count f evs.
Proof.
  unfold Runs.count. cbn [filter]. destruct (f ev); cbn [List.length]; lia.
Qed.

Lemma apply_counters (ev : event) (m : UptimeMonitor) :
  ping_count (Runs.apply ev m)
  = ping_count m + (if Runs.answered ev then 1 else 0) /\
  failed_pings (Runs.apply ev m)
  = failed_pings m + (if Runs.failed ev then 1 else 0) /\
  last_ping (Runs.apply ev m) = Runs.last_answer (last_ping m) [ev].
Proof.
  destruct ev as [| | now [status | e] | | e]; cbn; try (repeat split; lia).
  - destruct (status =? 200); cbn; repeat split; lia.
  - destruct e; cbn; repeat split; lia.
Qed.

Lemma run_accounts (evs : list event) (l l' : loop) :
  run evs l = Some l' ->
  ping_count (self l')
  = ping_count (self l) + Runs.count Runs.answered evs /\
  failed_pings (self l')
  = failed_pings (self l) + Runs.count Runs.failed evs /\
  last_ping (self l') = Runs.last_answer (last_ping (self l)) evs.
Proof.
  revert l. induction evs as [| ev evs IH]; intros l H; cbn in H.
  - injection H as <-. cbn. repeat split; lia.
  - destruct (step ev l) as [l1 |] eqn:Hstep; [| discriminate].
    destruct (IH l1 H) as (Hp & Hf & Hl).
    rewrite (step_self ev l l1 Hstep) in Hp, Hf, Hl.
    destruct (apply_counters ev (self l)) as (Ap & Af & Al).
    rewrite !count_cons. cbn [Runs.last_answer fold_left] in *.
    rewrite Hp, Hf, Hl, Ap, Af, Al. repeat split; lia.
Qed.

(** X1.  Along every run of a new monitor, [ping_count] is the number of
    requests that were answered, and [failed_pings] is the number of requests
    answered with another status than 200 or ended by an [Exception]. *)
Theorem counters_account (t0 : datetime) (url_ : string)
  (interval_ timeout_ : option Z) (evs : list event) (l : loop) :
  run evs (idle (__init__ t0 url_ interval_ timeout_)) = Some l ->
  ping_count (self l) = Runs.count Runs.answered evs /\
  failed_pings (self l) = Runs.count Runs.failed evs.
Proof.
  intros H. destruct (run_accounts evs _ l H) as (Hp & Hf & _).
  cbn in Hp, Hf. split; assumption.
Qed.

Lemma counters_account_witness :
  ping_count (self Spec.kept_alive_later)
  = Runs.count Runs.answered
      [Call_start_monitoring; RequestDone 5000 (Failed TimeoutError);
       SleepDone; RequestDone 60005000 (Response 200)] /\
  failed_pings (self Spec.kept_alive_later)
  = Runs.count Runs.failed
      [Call_start_monitoring; RequestDone 5000 (Failed TimeoutError);
       SleepDone; RequestDone 60005000 (Response 200)].
Proof.
  apply (counters_account 0 "https://your-app.fly.dev/health" (Some 60) None
           [Call_start_monitoring; RequestDone 5000 (Failed TimeoutError);
            SleepDone; RequestDone 60005000 (Response 200)]
           Spec.kept_alive_later).
  reflexivity.
Defined.

(** X2.  Along every run of a new monitor, [last_ping] is the clock reading
    of the last request that was answered, and [None] as long as none was: a
    request that times out or fails leaves it as it is. *)
Theorem last_ping_is_last_answer (t0 : datetime) (url_ : string)
  (interval_ timeout_ : option Z) (evs : list event) (l : loop) :
  run evs (idle (__init__ t0 url_ interval_ timeout_)) = Some l ->
  last_ping (self l) = Runs.last_answer None evs.
Proof.
  intros H. destruct (run_accounts evs _ l H) as (_ & _ & Hl). exact Hl.
Qed.

Lemma last_ping_is_last_answer_witness :
  last_ping (self Spec.kept_alive_later)
  = Runs.last_answer None
      [Call_start_monitoring; RequestDone 5000 (Failed TimeoutError);
       SleepDone; RequestDone 60005000 (Response 200)].
Proof.
  apply (last_ping_is_last_answer
           0 "https://your-app.fly.dev/health" (Some 60) None
           [Call_start_monitoring; RequestDone 5000 (Failed TimeoutError);
            SleepDone; RequestDone 60005000 (Response 200)]
           Spec.kept_alive_later).
  reflexivity.
Defined.

(** ** What a step appends to the trace *)

Lemma log_trace (l : loop) (r : log_record) :
  trace (log l r) = (trace l ++ [Log r])%list.
Proof. reflexivity. Qed.

Lemma finish_trace (l : loop) :
  trace (finish l) = (trace l ++ [Log MonitorStopped])%list.
Proof. reflexivity. Qed.

Lemma loop_head_trace (l : loop) :
  trace (loop_head l)
  = (trace l ++ if is_running (self l)
                then [Sleep (interval (self l))]
                else [Log MonitorStopped])%list.
Proof. unfold loop_head. destruct (is_running (self l)); reflexivity. Qed.

Lemma loop_except_trace (l : loop) (e : exn) :
  trace (loop_except l e)
  = (trace l ++ if is_CancelledError e
                then [Log MonitoringCancelled; Log MonitorStopped]
                else if is_Exception e
                then [Log (LoopError e); Sleep 30]
                else [])%list.
Proof.
  unfold loop_except.
  destruct (is_CancelledError e); [| destruct (is_Exception e)].
  - rewrite finish_trace, log_trace, <- app_assoc. reflexivity.
  - unfold emit, append. cbn [trace]. rewrite log_trace, <- app_assoc.
    reflexivity.
  - cbn [goto trace]. now rewrite app_nil_r.
Qed.

Lemma issue_ping_trace (l : loop) (p : phase) :
  trace (issue_ping l p)
  = (trace l ++ [HttpGet (url (self l)) (timeout (self l))])%list.
Proof. reflexivity. Qed.

Lemma log_stats_trace (l : loop) (now : datetime) :
  exists u,
    trace (log_stats l now)
    = (trace l ++ if ping_count (self l) mod 10 =? 0
                  then [Log (Stats (ping_count (self l))
                                   (round (success_rate (self l)) 2) u)]
                  else [])%list.
Proof.
  unfold log_stats. destruct (_ =? 0).
  - eexists. cbn [get_uptime_stats getitem String.eqb Ascii.eqb Bool.eqb].
    cbn. reflexivity.
  - exists EmptyString. now rewrite app_nil_r.
Qed.

Lemma scan_app (t u : list action) (b : bool) :
  Runs.scan b (t ++ u)
  = match Runs.scan b t with Some b' => Runs.scan b' u | None => None end.
Proof.
  revert b. induction t as [| a t IH]; intros b; [reflexivity |].
  destruct a as [u0 t0 | n | r]; cbn; [destruct b |..]; auto.
Qed.

Lemma scan_logs (rs : list log_record) (b : bool) :
  Runs.scan b (map Log rs) = Some b.
Proof. induction rs as [| r rs IH]; [reflexivity | exact IH]. Qed.

Lemma Forall_logs (P : action -> Prop) (rs : list log_record) :
  (forall r, In r rs -> P (Log r)) -> Forall P (map Log rs).
Proof.
  intros H. apply Forall_forall. intros a Ha.
  apply in_map_iff in Ha as (r & <- & Hr). now apply H.
Qed.

(** [ping_service] logs no statistics. *)
Lemma ping_service_logs (m : UptimeMonitor) (now : datetime)
  (r : request_result) (m0 : UptimeMonitor) :
  Forall (Runs.allowed m0) (map Log (logged_by (ping_service m now r))).
Proof.
  apply Forall_logs. unfold logged_by, ping_service.
  destruct r as [status | e];
    [destruct (status =? 200) | destruct e]; cbn;
    intros r0 Hin; repeat destruct Hin as [<- | Hin];
    exact I || contradiction.
Qed.

Lemma goto_trace (l : loop) (p : phase) : trace (goto l p) = trace l.
Proof. reflexivity. Qed.

Lemma with_self_trace (l : loop) (m : UptimeMonitor) :
  trace (with_self l m) = trace l.
Proof. reflexivity. Qed.

(** What a step appends: actions the monitor is allowed, with a sleep
    before a GET unless the coroutine is at a point where it may GET. *)
Lemma step_trace (ev : event) (l l' : loop) :
  step ev l = Some l' ->
  exists new,
    trace l' = (trace l ++ new)%list /\
    Forall (Runs.allowed (self l)) new /\
    forall b, (Runs.may_get (at_ l) = true -> b = true) ->
              exists b', Runs.scan b new = Some b' /\
                         (Runs.may_get (at_ l') = true -> b' = true).
Proof.
  intros H. unfold step in H.
  destruct ev as [| | now r | | e]; destruct (at_ l) eqn:Hat;
    try discriminate H;
    try (pose proof (ping_service_logs (self l) now r (self l)) as Hlogs;
         pose proof (ping_service_frame (self l) now r) as F;
         unfold logged_by, monitor_after in Hlogs, F;
         destruct (ping_service (self l) now r) as [[m' rs] [b0 | e']];
         cbn [fst snd] in Hlogs, F; destruct F as (Fu & Fi & Ft & _ & Fr));
    try (destruct (is_running (self l)) eqn:Hrun);
    injection H as <-;
    repeat first
      [ rewrite issue_ping_trace | rewrite loop_head_trace
      | rewrite loop_except_trace | rewrite log_trace | rewrite logs_trace
      | rewrite goto_trace | rewrite with_self_trace
      | match goal with
        | |- context [trace (log_stats ?x ?n)] =>
            let u := fresh "u" in let Hu := fresh "Hu" in
            destruct (log_stats_trace x n) as [u Hu]; rewrite Hu; clear Hu
        end ];
    rewrite ?loop_head_at, ?loop_except_at, ?log_stats_at, ?log_stats_self,
            ?logs_at, ?logs_self, ?log_at, ?log_self;
    cbn [self at_ trace with_self goto issue_ping emit set_is_running
         url interval timeout is_running ping_count];
    rewrite ?logs_at, ?logs_self, ?log_at, ?log_self;
    cbn [self at_ trace with_self goto issue_ping emit set_is_running
         url interval timeout is_running ping_count];
    rewrite <- ?app_assoc;
    first [ eexists; split; [reflexivity |]
          | exists []; split; [now rewrite app_nil_r |] ];
    rewrite ?Hat, ?Fr, ?Fi, ?Fu, ?Ft;
    (split;
     [ repeat (apply Forall_app; split); try exact Hlogs;
       repeat match goal with
              | |- context [if ?c then _ else _] => destruct c eqn:?
              end;
       repeat (apply Forall_cons || apply Forall_nil); cbn;
       try (apply Z.eqb_eq; assumption); auto
     | intros b Hb; cbn [Runs.may_get] in Hb;
       try (specialize (Hb eq_refl); subst b);
       rewrite ?scan_app, ?scan_logs;
       repeat match goal with
              | |- context [if ?c then _ else _] => destruct c eqn:?
              end;
       cbn; eexists; (split; [reflexivity |]);
       intros; reflexivity || discriminate || auto ]).
Qed.

Lemma allowed_frame (m m' : UptimeMonitor) (a : action) :
  url m' = url m -> interval m' = interval m -> timeout m' = timeout m ->
  Runs.allowed m a -> Runs.allowed m' a.
Proof.
  intros Hu Hi Ht. destruct a as [u t | s | r]; cbn;
    rewrite ?Hu, ?Hi, ?Ht; auto.
Qed.

Lemma run_trace (evs : list event) (l l' : loop) :
  run evs l = Some l' ->
  (Forall (Runs.allowed (self l)) (trace l) ->
   Forall (Runs.allowed (self l)) (trace l')) /\
  (forall b, Runs.scan true (trace l) = Some b ->
             (Runs.may_get (at_ l) = true -> b = true) ->
             exists b', Runs.scan true (trace l') = Some b').
Proof.
  revert l. induction evs as [| ev evs IH]; intros l H; cbn in H.
  - injection H as <-. split; [auto | eauto].
  - destruct (step ev l) as [l1 |] eqn:Hstep; [| discriminate].
    destruct (step_trace ev l l1 Hstep) as (new & Htr & Hall & Hscan).
    destruct (step_frame ev l l1 Hstep) as (Hu & Hi & Ht & _).
    destruct (IH l1 H) as (IHall & IHscan). split.
    + intros Hl.
      assert (Hl1 : Forall (Runs.allowed (self l1)) (trace l1)).
      { rewrite Htr. apply Forall_app. split.
        - eapply Forall_impl; [| exact Hl]. intros a.
          now apply allowed_frame.
        - eapply Forall_impl; [| exact Hall]. intros a.
          now apply allowed_frame. }
      eapply Forall_impl; [| exact (IHall Hl1)]. intros a.
      now apply allowed_frame.
    + intros b Hb Hmay.
      destruct (Hscan b Hmay) as (b1 & Hb1 & Hmay1).
      apply (IHscan b1); [| exact Hmay1].
      rewrite Htr, scan_app, Hb. exact Hb1.
Qed.

(** X3.  Whatever happens to a new monitor, every GET it issues goes to its
    [url] with its [timeout], every sleep lasts its [interval] or 30 seconds,
    and a statistics record is only logged for a [ping_count] that is a
    multiple of 10. *)
Theorem monitor_actions_allowed (t0 : datetime) (url_ : string)
  (interval_ timeout_ : option Z) (evs : list event) (l : loop) (a : action) :
  run evs (idle (__init__ t0 url_ interval_ timeout_)) = Some l ->
  In a (trace l) ->
  match a with
  | HttpGet u t => u = url_ /\ t = default 10 timeout_
  | Sleep s => s = default 300 interval_ \/ s = 30
  | Log (Stats n _ _) => n mod 10 = 0
  | Log _ => True
  end.
Proof.
  intros H Ha.
  destruct (run_trace evs _ l H) as (Hall & _).
  pose proof (Hall (Forall_nil _)) as Hl.
  rewrite Forall_forall in Hl. exact (Hl a Ha).
Qed.

Lemma monitor_actions_allowed_witness :
  30 = default 300 (Some 60) \/ 30 = 30.
Proof.
  apply (monitor_actions_allowed
           0 "https://your-app.fly.dev/health" (Some 60) None
           [Call_start_monitoring; RequestDone 5000 (Failed TimeoutError);
            SleepRaised (OSError "stalled")]
           {| self := Runs.apply (RequestDone 5000 (Failed TimeoutError))
                        (Runs.apply Call_start_monitoring
                           (__init__ 0 "https://your-app.fly.dev/health"
                                     (Some 60) None));
              at_ := Cooldown;
              trace := [ Log (StartingMonitor
                                "https://your-app.fly.dev/health");
                         Log (PingInterval 60); Log (RequestTimeout 10);
                         HttpGet "https://your-app.fly.dev/health" 10;
                         Log (PingTimeout 10); Sleep 60;
                         Log (LoopError (OSError "stalled")); Sleep 30 ] |}
           (Sleep 30)).
  - reflexivity.
  - cbn. auto 10.
Defined.

Lemma scan_slept (mid : list action) :
  Runs.scan false mid = Some true -> exists s, In (Sleep s) mid.
Proof.
  induction mid as [| a mid IH]; cbn; [discriminate |].
  destruct a as [u t | s | r]; intros H.
  - discriminate.
  - exists s. now left.
  - destruct (IH H) as [s Hs]. exists s. now right.
Qed.

(** X4.  A monitor never issues two GETs in a row: between any two GETs of
    a run there is a sleep. *)
Theorem pings_are_spaced (m : UptimeMonitor) (evs : list event) (l : loop)
  (before between after : list action) (u1 u2 : string) (t1 t2 : Z) :
  run evs (idle m) = Some l ->
  trace l
  = (before ++ HttpGet u1 t1 :: between ++ HttpGet u2 t2 :: after)%list ->
  exists s, In (Sleep s) between.
Proof.
  intros H Htr.
  destruct (run_trace evs _ l H) as (_ & Hscan).
  destruct (Hscan true eq_refl (fun _ => eq_refl)) as [b Hb].
  rewrite Htr, scan_app in Hb.
  destruct (Runs.scan true before) as [[|] |]; try discriminate.
  cbn [Runs.scan] in Hb. rewrite scan_app in Hb.
  destruct (Runs.scan false between) as [[|] |] eqn:Hmid; try discriminate.
  now apply scan_slept.
Qed.

Lemma pings_are_spaced_witness :
  exists s, In (Sleep s) [Log (PingTimeout 10); Sleep 60].
Proof.
  apply (pings_are_spaced
           (__init__ 0 "https://your-app.fly.dev/health" (Some 60) None)
           [Call_start_monitoring; RequestDone 5000 (Failed TimeoutError);
            SleepDone; RequestDone 60005000 (Response 200)]
           Spec.kept_alive_later
           [ Log (StartingMonitor "https://your-app.fly.dev/health");
             Log (PingInterval 60); Log (RequestTimeout 10) ]
           [ Log (PingTimeout 10); Sleep 60 ]
           [ Log (PingSuccessful 200); Sleep 60 ]
           "https://your-app.fly.dev/health"
           "https://your-app.fly.dev/health" 10 10).
  - reflexivity.
  - reflexivity.
Defined.

(** ** How [start_monitoring] ends *)

(** [ping_service] only lets through what is not an [Exception], and only
    from a request that raised it. *)
Lemma ping_service_raises (m : UptimeMonitor) (now : datetime)
  (r : request_result) (e : exn) :
  outcome_of (ping_service m now r) = Raise e ->
  r = Failed e /\ is_Exception e = false.
Proof.
  unfold outcome_of, ping_service.
  destruct r as [status | e0];
    [destruct (status =? 200) | destruct e0]; cbn; intros H;
    try discriminate H; injection H as <-; split; reflexivity.
Qed.

Lemma step_calm (ev : event) (l l' : loop) :
  step ev l = Some l' ->
  Runs.sleep_fault ev = false ->
  Runs.calm (at_ l) = true -> Runs.calm (at_ l') = true.
Proof.
  intros H Hev Hcalm. unfold step in H.
  destruct ev as [| | now r | | e]; destruct (at_ l) eqn:Hat;
    try discriminate H; try discriminate Hcalm;
    try (pose proof (ping_service_raises (self l) now r) as R;
         unfold outcome_of in R;
         destruct (ping_service (self l) now r) as [[m' rs] [b0 | e']];
         cbn [fst snd] in R;
         try (destruct (R e' eq_refl) as [_ R']));
    try (destruct (is_running (self l)) eqn:Hrun);
    injection H as <-;
    rewrite ?loop_head_at, ?loop_except_at, ?log_stats_at, ?logs_at, ?log_at;
    cbn [at_ goto issue_ping emit with_self Runs.sleep_fault] in *;
    rewrite ?logs_at, ?log_at, ?Hat, ?R', ?Hev;
    repeat match goal with
           | |- context [if ?c then _ else _] => destruct c
           end;
    cbn; rewrite ?R', ?Hev; auto.
Qed.

Lemma run_calm (evs : list event) (l0 l : loop) :
  run evs l0 = Some l ->
  existsb Runs.sleep_fault evs = false ->
  Runs.calm (at_ l0) = true -> Runs.calm (at_ l) = true.
Proof.
  revert l0. induction evs as [| ev evs IH]; intros l0 H Hev Hc; cbn in H.
  - now injection H as <-.
  - destruct (step ev l0) as [l1 |] eqn:Hstep; [| discriminate].
    cbn in Hev. apply orb_false_iff in Hev as [Hev1 Hev2].
    apply (IH l1 H Hev2). exact (step_calm ev l0 l1 Hstep Hev1 Hc).
Qed.

(** X5.  As long as no sleep of the loop fails with an [Exception],
    [start_monitoring] never cools down and never ends with an [Exception],
    whatever the requests do. *)
Theorem requests_never_crash_monitor (m : UptimeMonitor) (evs : list event)
  (l : loop) :
  run evs (idle m) = Some l ->
  existsb Runs.sleep_fault evs = false ->
  at_ l <> Cooldown /\
  forall e, at_ l = Raised e -> is_Exception e = false.
Proof.
  intros H Hev.
  pose proof (run_calm evs (idle m) l H Hev eq_refl) as Hcalm.
  split.
  - intros Hat. rewrite Hat in Hcalm. discriminate.
  - intros e Hat. rewrite Hat in Hcalm. now apply negb_true_iff in Hcalm.
Qed.

Lemma requests_never_crash_monitor_witness :
  at_ Spec.kept_alive_later <> Cooldown /\
  forall e, at_ Spec.kept_alive_later = Raised e -> is_Exception e = false.
Proof.
  apply (requests_never_crash_monitor
           (__init__ 0 "https://your-app.fly.dev/health" (Some 60) None)
           [Call_start_monitoring; RequestDone 5000 (Failed TimeoutError);
            SleepDone; RequestDone 60005000 (Response 200)]
           Spec.kept_alive_later).
  - reflexivity.
  - reflexivity.
Defined.

(** X13.  [keep_alive] swallows [KeyboardInterrupt], stopping the monitor,
    and as long as no sleep of the loop fails with an [Exception] it never
    raises an [Exception] either: what is left to leave it is cancellation. *)
Theorem keep_alive_raises_no_exception (now : datetime) (url_ : string)
  (interval_ : option Z) (l0 : loop) (evs : list event) (l l' : loop)
  (res : result unit) :
  keep_alive now url_ interval_ = Some l0 ->
  run evs l0 = Some l ->
  existsb Runs.sleep_fault evs = false ->
  keep_alive_end l = Some (l', res) ->
  match res with
  | Return _ =>
      at_ l = Returned \/
      at_ l = Raised KeyboardInterrupt /\ is_running (self l') = false
  | Raise e => at_ l = Raised e /\ e = CancelledError
  end.
Proof.
  intros H0 Hrun Hev Hend. unfold keep_alive in H0.
  assert (Hboth : run (Call_start_monitoring :: evs)
                      (idle (__init__ now url_
                               (Some (default 300 interval_)) None))
                  = Some l).
  { cbn [run]. rewrite H0. exact Hrun. }
  pose proof (run_calm _ _ l Hboth Hev eq_refl) as Hcalm.
  unfold keep_alive_end in Hend.
  destruct (at_ l) as [| | | | | | e] eqn:Hat; try discriminate Hend.
  - injection Hend as <- <-. now left.
  - cbn in Hcalm. apply negb_true_iff in Hcalm.
    destruct e; try discriminate Hcalm; cbn in Hend;
      injection Hend as <- <-.
    + split; reflexivity.
    + right. split; reflexivity.
Qed.

Lemma keep_alive_raises_no_exception_witness :
  at_ Spec.cancelled_early = Raised CancelledError /\
  CancelledError = CancelledError.
Proof.
  apply (keep_alive_raises_no_exception
           0 "https://your-app.fly.dev/health" (Some 60) Spec.kept_alive
           [RequestDone 5000 (Failed CancelledError)]
           Spec.cancelled_early Spec.cancelled_early (Raise CancelledError)).
  - reflexivity.
  - reflexivity.
  - reflexivity.
  - reflexivity.
Defined.

Lemma step_returned (ev : event) (l l' : loop) (c : bool) :
  step ev l = Some l' ->
  (at_ l = Returned -> is_running (self l) = false \/ c = true) ->
  at_ l' = Returned ->
  is_running (self l') = false \/ c || Runs.cancels ev = true.
Proof.
  intros H Hl. unfold step in H.
  destruct ev as [| | now r | | e]; destruct (at_ l) eqn:Hat;
    try discriminate H;
    try (pose proof (ping_service_raises (self l) now r) as R;
         pose proof (ping_service_frame (self l) now r) as F;
         unfold outcome_of, monitor_after in R, F;
         destruct (ping_service (self l) now r) as [[m' rs] [b0 | e']];
         cbn [fst snd] in R, F; destruct F as (_ & _ & _ & _ & Fr);
         try (destruct (R e' eq_refl) as [-> _]));
    try (destruct (is_running (self l)) eqn:Hrun);
    injection H as <-;
    rewrite ?loop_head_at, ?loop_head_self, ?loop_except_at,
            ?loop_except_self, ?log_stats_at, ?log_stats_self,
            ?logs_at, ?logs_self, ?log_at, ?log_self;
    cbn [self at_ goto issue_ping emit with_self set_is_running is_running
         Runs.cancels];
    rewrite ?logs_at, ?logs_self, ?log_at, ?log_self, ?Fr, ?Hrun;
    cbn [self at_ goto issue_ping emit with_self set_is_running is_running];
    repeat match goal with
           | |- context [if ?c then _ else _] => destruct c eqn:?
           end;
    intros Hret; try discriminate Hret; auto using orb_true_r.
Qed.

(** X6.  [start_monitoring] returns only when the monitor was stopped or
    the task was cancelled: the loop does not end on its own. *)
Theorem returns_only_when_stopped_or_cancelled (m : UptimeMonitor)
  (evs : list event) (l : loop) :
  run evs (idle m) = Some l ->
  at_ l = Returned ->
  is_running (self l) = false \/ existsb Runs.cancels evs = true.
Proof.
  intros H.
  assert (G : forall evs l0 c, run evs l0 = Some l ->
                (at_ l0 = Returned ->
                 is_running (self l0) = false \/ c = true) ->
                at_ l = Returned ->
                is_running (self l) = false \/
                c || existsb Runs.cancels evs = true).
  { clear. induction evs as [| ev evs IH]; intros l0 c H Hc; cbn in H.
    - injection H as <-. cbn. rewrite orb_false_r. exact Hc.
    - destruct (step ev l0) as [l1 |] eqn:Hstep; [| discriminate].
      intros Hret.
      destruct (IH l1 (c || Runs.cancels ev) H
                  (step_returned ev l0 l1 c Hstep Hc) Hret) as [Hr | Hr];
        [now left | right]. cbn. now rewrite orb_assoc. }
  intros Hret.
  exact (G evs (idle m) false H (fun Hat => ltac:(discriminate Hat)) Hret).
Qed.

Lemma returns_only_when_stopped_or_cancelled_witness :
  is_running (self Spec.asleep_stopped) = false \/
  existsb Runs.cancels
    [Call_start_monitoring; RequestDone 5000 (Response 200);
     Call_stop_monitoring; SleepDone] = true.
Proof.
  apply (returns_only_when_stopped_or_cancelled
           (__init__ 0 "http://localhost:8080/health" (Some 1) (Some 1))
           [Call_start_monitoring; RequestDone 5000 (Response 200);
            Call_stop_monitoring; SleepDone]
           Spec.asleep_stopped).
  - reflexivity.
  - reflexivity.
Defined.

End Runs.

(* ================================================================== *)
(** * Facts: the arithmetic of the two formatters *)
(* ================================================================== *)

Section Fields.
Import Py.

(** X7.  For nonnegative [seconds] the four integers the formatters compute
    lose nothing but the fraction: they add up to the whole seconds, none is
    negative, the hours are below 24 and the minutes and seconds below 60. *)
Theorem duration_fields_exact (seconds : Q) :
  (0 <= seconds)%Q ->
  let days := int (floordiv seconds 86400) in
  let hours := int (floordiv (mod_ seconds 86400) 3600) in
  let minutes := int (floordiv (mod_ seconds 3600) 60) in
  let secs := int (mod_ seconds 60) in
  86400 * days + 3600 * hours + 60 * minutes + secs = Qfloor seconds /\
  0 <= days /\ 0 <= hours < 24 /\ 0 <= minutes < 60 /\ 0 <= secs < 60.
Proof.
  intros Hs. cbv zeta.
  rewrite days_amount, hours_amount, minutes_amount, secs_amount.
  unfold Spec.amount. pose proof (Qfloor_nonneg seconds Hs) as Hfl.
  revert Hfl. generalize (Qfloor seconds). intros s Hfl.
  Z.div_mod_to_equations. lia.
Qed.

Lemma duration_fields_exact_witness :
  let seconds := (180123 # 2)%Q in
  let days := int (floordiv seconds 86400) in
  let hours := int (floordiv (mod_ seconds 86400) 3600) in
  let minutes := int (floordiv (mod_ seconds 3600) 60) in
  let secs := int (mod_ seconds 60) in
  86400 * days + 3600 * hours + 60 * minutes + secs = Qfloor seconds /\
  0 <= days /\ 0 <= hours < 24 /\ 0 <= minutes < 60 /\ 0 <= secs < 60.
Proof.
  apply (duration_fields_exact (180123 # 2)). unfold Qle. cbn. lia.
Defined.

Lemma format_duration_floor (seconds : Q) :
  KeepAlive.format_duration seconds
  = KeepAlive.format_duration (inject_Z (Qfloor seconds)).
Proof.
  unfold KeepAlive.format_duration.
  rewrite !days_amount, !hours_amount, !minutes_amount, !secs_amount.
  now rewrite Qfloor_Z.
Qed.

Lemma format_uptime_floor (seconds : Q) :
  WebServer.format_uptime seconds
  = WebServer.format_uptime (inject_Z (Qfloor seconds)).
Proof.
  unfold WebServer.format_uptime.
  rewrite !days_amount, !hours_amount, !minutes_amount, !secs_amount.
  now rewrite Qfloor_Z.
Qed.

(** X8.  Both formatters ignore the fraction of a second: a nonnegative
    value and its floor are formatted alike. *)
Theorem formatters_ignore_fraction (seconds : Q) :
  (0 <= seconds)%Q ->
  KeepAlive.format_duration seconds
  = KeepAlive.format_duration (inject_Z (Qfloor seconds)) /\
  WebServer.format_uptime seconds
  = WebServer.format_uptime (inject_Z (Qfloor seconds)).
Proof.
  intros _. split; [apply format_duration_floor | apply format_uptime_floor].
Qed.

Lemma formatters_ignore_fraction_witness :
  KeepAlive.format_duration (180123 # 2)
  = KeepAlive.format_duration (inject_Z (Qfloor (180123 # 2))) /\
  WebServer.format_uptime (180123 # 2)
  = WebServer.format_uptime (inject_Z (Qfloor (180123 # 2))).
Proof.
  apply (formatters_ignore_fraction (180123 # 2)). unfold Qle. cbn. lia.
Defined.

(** X9.  For a negative number of seconds both formatters drop the (negative)
    day count without a sign and show what is left of the day: the output is
    that of [seconds mod 86400]. *)
Theorem formatters_wrap_negative (seconds : Z) :
  seconds < 0 ->
  KeepAlive.format_duration (inject_Z seconds)
  = KeepAlive.format_duration (inject_Z (seconds mod 86400)) /\
  WebServer.format_uptime (inject_Z seconds)
  = WebServer.format_uptime (inject_Z (seconds mod 86400)).
Proof.
  intros Hneg.
  unfold KeepAlive.format_duration, WebServer.format_uptime.
  rewrite !days_amount, !hours_amount, !minutes_amount, !secs_amount.
  rewrite !Qfloor_Z. unfold Spec.amount.
  assert (Hd : (0 <? seconds / 86400) = false)
    by (apply Z.ltb_ge; Z.div_mod_to_equations; lia).
  assert (Hd' : (0 <? seconds mod 86400 / 86400) = false)
    by (apply Z.ltb_ge; Z.div_mod_to_equations; lia).
  assert (Hh : (seconds mod 86400) mod 86400 = seconds mod 86400)
    by (Z.div_mod_to_equations; lia).
  assert (Hm : (seconds mod 86400) mod 3600 = seconds mod 3600)
    by (Z.div_mod_to_equations; lia).
  assert (Hs : (seconds mod 86400) mod 60 = seconds mod 60)
    by (Z.div_mod_to_equations; lia).
  rewrite Hd, Hd', Hh, Hm, Hs. split; reflexivity.
Qed.

Lemma formatters_wrap_negative_witness :
  KeepAlive.format_duration (inject_Z (-1))
  = KeepAlive.format_duration (inject_Z ((-1) mod 86400)) /\
  WebServer.format_uptime (inject_Z (-1))
  = WebServer.format_uptime (inject_Z ((-1) mod 86400)).
Proof. apply (formatters_wrap_negative (-1)). lia. Defined.

Example format_duration_minus_one :
  KeepAlive.format_duration (inject_Z (-1)) = "23ч 59м 59с".
Proof. vm_compute. reflexivity. Qed.

End Fields.

(* ================================================================== *)
(** * Facts: what the health server answers, and how its start ends *)
(* ================================================================== *)

Section Serving.
Import Py WebServer.

(** X10.  The server routes exactly [/], [/health], [/status] and
    [/uptime]: any other path has no handler.  [/], [/health] and [/uptime]
    always answer 200 and log nothing, with or without a bot.  [/status]
    answers 200 without a bot and when [get_me()] returns; when [get_me()]
    raises it logs the error and answers 500 for an [Exception], and lets the
    exception through otherwise. *)
Theorem routes_served (t0 now : datetime) (bot_ : option Bot)
  (port_ : option Z) (path : string) (me : result User) :
  let answer := get (__init__ t0 bot_ port_) path now me in
  (answer = None <->
   path <> "/" /\ path <> "/health" /\ path <> "/status" /\
   path <> "/uptime") /\
  (path = "/" \/ path = "/health" \/ path = "/uptime" ->
   exists r, answer = Some ([], Return r) /\ status r = 200) /\
  (path = "/status" ->
   match bot_, me with
   | None, _ | Some _, Return _ =>
       exists r, answer = Some ([], Return r) /\ status r = 200
   | Some _, Raise e =>
       if is_Exception e
       then exists r, answer = Some ([ErrorGettingBotStatus e], Return r) /\
                      status r = 500
       else answer = Some ([], Raise e)
   end).
Proof.
  cbv zeta. split; [| split].
  - unfold get. cbn [__init__ routes setup_routes resolve].
    destruct (String.eqb_spec "/" path) as [<- | H1];
      [split; [discriminate | intros (H & _); now elim H] |].
    destruct (String.eqb_spec "/health" path) as [<- | H2];
      [split; [discriminate | intros (_ & H & _); now elim H] |].
    destruct (String.eqb_spec "/status" path) as [<- | H3];
      [split; [| intros (_ & _ & H & _); now elim H] |].
    + unfold bot_status. destruct (bot (__init__ t0 bot_ port_));
        [destruct me as [info | e]; [| destruct (is_Exception e)] |];
        discriminate.
    + destruct (String.eqb_spec "/uptime" path) as [<- | H4];
        [split; [discriminate | intros (_ & _ & _ & H); now elim H] |].
      split; [intros _; repeat split; congruence | reflexivity].
  - intros [-> | [-> | ->]]; eexists; split; reflexivity.
  - intros ->. destruct bot_ as [b |].
    + destruct me as [info | e].
      * eexists. split; reflexivity.
      * unfold get, bot_status.
        cbn [__init__ routes setup_routes resolve String.eqb Ascii.eqb
             Bool.eqb bot].
        cbn. destruct (is_Exception e).
        -- eexists. split; reflexivity.
        -- reflexivity.
    + eexists. split; reflexivity.
Qed.

(** X14.  Whatever happens while the server starts, [on_startup] ends in
    one of three ways: the server started and it says so; the start failed
    with an [Exception] and it logs the failure and returns; or something
    that is not an [Exception] interrupted the start and passes through.  The
    port is requested only after [runner.setup()] succeeded, once, on all
    interfaces. *)
Theorem on_startup_outcomes (web_server : HealthCheckServer)
  (setup_ site_start : result unit) :
  let h := Bot.on_startup web_server setup_ site_start in
  match Spec.startup_failure setup_ site_start with
  | None =>
      Bot.ended h = Return tt /\
      In Bot.HealthServerStarted (Bot.logged h)
  | Some e =>
      ~ In Bot.HealthServerStarted (Bot.logged h) /\
      if is_Exception e
      then Bot.ended h = Return tt /\
           In (Bot.FailedToStartHealthServer e) (Bot.logged h)
      else Bot.ended h = Raise e
  end /\
  match setup_ with
  | Return _ => Bot.did h = [RunnerSetup; SiteStart "0.0.0.0" (port web_server)]
  | Raise _ => Bot.did h = [RunnerSetup]
  end.
Proof.
  unfold Bot.on_startup, start_server, start_server_except,
         Spec.startup_failure.
  destruct setup_ as [[] | e1];
    [destruct site_start as [[] | e2] |];
    try destruct (is_Exception e1) eqn:He1;
    try destruct (is_Exception e2) eqn:He2;
    cbn; rewrite ?He1, ?He2; cbn;
    repeat split; auto;
    intros H; repeat destruct H as [H | H]; discriminate || contradiction.
Qed.

End Serving.

(* ================================================================== *)
(** * Facts: the stand-alone script of the monitor *)
(* ================================================================== *)

Section Script.
Import Py KeepAlive.

Variable int_ : string -> option Z.

(** An index outside [-len(l) .. len(l) - 1] raises [IndexError]. *)
Lemma getitem_out_of_range {A : Type} (l : list A) (i : Z) :
  i < - Z.of_nat (List.length l) \/ Z.of_nat (List.length l) <= i ->
  Main.getitem l i = None.
Proof.
  intros H. unfold Main.getitem.
  destruct (Z.leb_spec 0 i), (Z.ltb_spec i (Z.of_nat (List.length l)));
    cbn [andb]; try lia;
    destruct (Z.leb_spec (- Z.of_nat (List.length l)) i), (Z.ltb_spec i 0);
    cbn [andb]; try lia; reflexivity.
Qed.

(** X11.  Without a URL on the command line the script always ends up with
    one of its four default URLs.  The number typed is used as a list index
    after subtracting 1, so 1 to 4 pick the URL listed under that number, but 0
    and -1 to -3 pick a URL counted from the end of the list instead of
    falling back; any other number, and an answer that is no number, gives the
    first URL. *)
Theorem script_url_choice (script_name answer : string) :
  In (Main.ping_url int_ [script_name] answer) Main.default_urls /\
  (int_ answer = None ->
   Main.ping_url int_ [script_name] answer = "http://localhost:8080/health") /\
  (forall n, int_ answer = Some n ->
     Main.ping_url int_ [script_name] answer
     = if (-3 <=? n) && (n <=? 4)
       then nth (Z.to_nat ((n - 1) mod 4)) Main.default_urls EmptyString
       else "http://localhost:8080/health").
Proof.
  assert (Hn : forall n, int_ answer = Some n ->
     Main.ping_url int_ [script_name] answer
     = if (-3 <=? n) && (n <=? 4)
       then nth (Z.to_nat ((n - 1) mod 4)) Main.default_urls EmptyString
       else "http://localhost:8080/health").
  { intros n Hint. unfold Main.ping_url, Main.choose_url. rewrite Hint.
    destruct (Z.leb_spec (-3) n) as [Hlo | Hlo];
      [destruct (Z.leb_spec n 4) as [Hhi | Hhi] |]; cbn [andb].
    - assert (Hcases : n = -3 \/ n = -2 \/ n = -1 \/ n = 0 \/
                       n = 1 \/ n = 2 \/ n = 3 \/ n = 4) by lia.
      repeat (destruct Hcases as [-> | Hcases]); try subst n; reflexivity.
    - rewrite getitem_out_of_range by (cbn; lia). reflexivity.
    - rewrite getitem_out_of_range by (cbn; lia). reflexivity. }
  assert (Hnone : int_ answer = None ->
     Main.ping_url int_ [script_name] answer = "http://localhost:8080/health").
  { intros Hint. unfold Main.ping_url, Main.choose_url. now rewrite Hint. }
  split; [| split; [exact Hnone | exact Hn]].
  destruct (int_ answer) as [n |] eqn:Hint.
  - rewrite (Hn n eq_refl).
    destruct ((-3 <=? n) && (n <=? 4)) eqn:Hrange; [| now left].
    apply andb_true_iff in Hrange as [Hlo Hhi].
    apply Z.leb_le in Hlo, Hhi.
    assert (Hcases : n = -3 \/ n = -2 \/ n = -1 \/ n = 0 \/
                     n = 1 \/ n = 2 \/ n = 3 \/ n = 4) by lia.
    repeat (destruct Hcases as [-> | Hcases]); try subst n; cbn; auto 6.
  - rewrite (Hnone eq_refl). now left.
Qed.

(** X12.  Whatever the command line, the monitor the script starts GETs only
    the chosen URL, with a timeout of 10; the interval of the command line is
    used as it is, without a check of its sign, so every sleep lasts that
    many seconds or 30. *)
Theorem script_monitor_actions (argv : list string) (answer : string)
  (now : Z) (l0 : loop) (evs : list event) (l : loop) (a : action) :
  snd (Main.script int_ argv answer now) = Some l0 ->
  run evs l0 = Some l ->
  In a (trace l) ->
  match a with
  | HttpGet u t => u = Main.ping_url int_ argv answer /\ t = 10
  | Sleep s => s = Main.ping_interval int_ argv \/ s = 30
  | Log (Stats n _ _) => n mod 10 = 0
  | Log _ => True
  end.
Proof.
  unfold Main.script, Main.ping_url.
  destruct (Main.choose_url int_ argv answer) as [url_ shown].
  cbn [fst snd]. intros H0 Hrun Ha.
  unfold keep_alive in H0.
  assert (Hboth : run (Call_start_monitoring :: evs)
                      (idle (__init__ now url_
                               (Some (default 300
                                        (Some (Main.ping_interval int_ argv))))
                               None))
                  = Some l).
  { cbn [run]. rewrite H0. exact Hrun. }
  destruct (run_trace _ _ l Hboth) as (Hall & _).
  pose proof (Hall (Forall_nil _)) as Hl.
  rewrite Forall_forall in Hl. exact (Hl a Ha).
Qed.

End Script.

Lemma script_url_choice_witness :
  Main.ping_url (fun _ => Some 0) ["keep_alive.py"] "0"
  = "https://your-app.fly.dev/health".
Proof.
  exact (proj2 (proj2 (script_url_choice (fun _ => Some 0)
                         "keep_alive.py" "0"))
               0 eq_refl).
Defined.

Lemma script_monitor_actions_witness :
  45 = Main.ping_interval Main.int_45 Main.argv_45 \/ 45 = 30.
Proof.
  apply (script_monitor_actions
           Main.int_45 Main.argv_45 EmptyString 0 Main.started_45
           [KeepAlive.RequestDone 5000 (KeepAlive.Response 200)]
           Main.pinged_45 (KeepAlive.Sleep 45)).
  - reflexivity.
  - reflexivity.
  - cbn. auto 10.
Defined.
